(** * The Google Chat -> OpenWebUI webhook relay ([bot.py])

    A shallow embedding of the [webhook] handler of [bot.py]: the values the
    handler sees are parsed JSON documents, the process-wide dictionary
    [chat_sessions] is a finite map, the two outgoing [requests.post] calls
    and the PyJWT verification are answered by an explicit [world], and the
    handler runs in a state-and-exception monad whose state is the session
    dictionary together with the log of backend calls issued so far.

    Logging ([app.logger]) has no effect on the response or on the session
    dictionary and is left out.  JSON numbers are integers. *)

From Stdlib Require Import ZArith Ascii String List Bool DecimalString.
From stdpp Require Import base option strings list gmap.

Local Open Scope string_scope.
Local Open Scope list_scope.
Local Open Scope Z_scope.
Set Warnings "-register-all".

(** ** Parsed JSON documents, as Python values *)

Inductive json : Type :=
| JNull
| JBool (b : bool)
| JNum (n : Z)
| JStr (s : string)
| JArr (items : list json)
| JObj (fields : list (string * json)).

(** The exceptions the handler can let escape. *)
Inductive exn : Type :=
| BadRequest        (* request.get_json() on a body that is not JSON;
                       Flask turns this one into a 400 answer *)
| AttributeError    (* .get on a value that is not a dict *)
| TypeError         (* unhashable dictionary key, bad operand of [in], bad index *)
| KeyError
| JSONDecodeError.  (* resp.json() on a body that is not JSON *)

Inductive result (A : Type) : Type :=
| Ok (a : A)
| Raise (e : exn).
Arguments Ok {A} a.
Arguments Raise {A} e.

Module Py.

(** Python truthiness, as used by [not x] and [x or y]. *)
Definition truthy (v : json) : bool :=
  match v with
  | JNull => false
  | JBool b => b
  | JNum n => negb (n =? 0)
  | JStr s => negb (String.eqb s "")
  | JArr items => match items with [] => false | _ => true end
  | JObj fields => match fields with [] => false | _ => true end
  end.

(** Lookup in a parsed JSON object.  The parser keeps one entry per key;
    on an association list the first entry of a key is the one found. *)
Fixpoint assoc (k : string) (fields : list (string * json)) : option json :=
  match fields with
  | [] => None
  | (k', v) :: rest => if String.eqb k k' then Some v else assoc k rest
  end.

(** [d.get(k, dflt)]: only a dict has the method. *)
Definition get (d : json) (k : string) (dflt : json) : result json :=
  match d with
  | JObj fields => Ok (default dflt (assoc k fields))
  | _ => Raise AttributeError
  end.

(** [v == s] for a string literal [s]. *)
Definition eq_str (v : json) (s : string) : bool :=
  match v with
  | JStr s' => String.eqb s' s
  | _ => false
  end.

(** [s.startswith(p)] *)
Fixpoint startswith (s p : string) : bool :=
  match p with
  | EmptyString => true
  | String c p' =>
      match s with
      | EmptyString => false
      | String d s' => if Ascii.eqb c d then startswith s' p' else false
      end
  end.

(** [s.split(sep)] for a non-empty separator: the text is scanned from the
    left and cut at every occurrence of [sep], an occurrence being skipped
    whole once found.  [cur] is the piece being read, in reverse; [skip]
    counts the characters of a found separator still to be passed over. *)
Fixpoint split_from (sep : string) (skip : nat) (cur : list ascii) (s : string)
  : list string :=
  match s with
  | EmptyString => [string_of_list_ascii (rev cur)]
  | String c s' =>
      match skip with
      | S k => split_from sep k cur s'
      | O =>
          if startswith s sep
          then string_of_list_ascii (rev cur)
                 :: split_from sep (Nat.pred (String.length sep)) [] s'
          else split_from sep O (c :: cur) s'
      end
  end.

Definition split (s sep : string) : list string := split_from sep O [] s.

(** [l[-1]] on a list of strings; [split] never returns the empty list. *)
Definition last_piece (l : list string) : string := List.last l "".

(** [needle in s] for strings: substring test. *)
Fixpoint contains (s needle : string) : bool :=
  startswith s needle
  || match s with
     | EmptyString => false
     | String _ s' => contains s' needle
     end.

(** [k in v] for a string literal [k]. *)
Definition has (v : json) (k : string) : result bool :=
  match v with
  | JObj fields => Ok (bool_decide (is_Some (assoc k fields)))
  | JArr items => Ok (existsb (fun x => eq_str x k) items)
  | JStr s => Ok (contains s k)
  | _ => Raise TypeError
  end.

(** [v[k]] for a string literal [k]. *)
Definition index (v : json) (k : string) : result json :=
  match v with
  | JObj fields =>
      match assoc k fields with
      | Some x => Ok x
      | None => Raise KeyError
      end
  | _ => Raise TypeError
  end.

(** The text of an integer. *)
Definition str_of_int (n : Z) : string := NilZero.string_of_int (Z.to_int n).

(** [str(v)], as an f-string renders [{v}].  The text of a list or of a
    dict is Python's [repr], taken as given. *)
Definition str (repr : json -> string) (v : json) : string :=
  match v with
  | JNull => "None"
  | JBool true => "True"
  | JBool false => "False"
  | JNum n => str_of_int n
  | JStr s => s
  | _ => repr v
  end.

End Py.

(** ** The session dictionary *)

(** What a Python dict keeps of a key: [None], an integer or a string.
    [True] and [False] are the keys [1] and [0]; lists and dicts cannot be
    hashed. *)
Inductive key : Type :=
| KNone
| KInt (n : Z)
| KStr (s : string).

#[global] Instance key_eq_dec : EqDecision key.
Proof. solve_decision. Defined.

Definition key_code (k : key) : option (Z + string) :=
  match k with
  | KNone => None
  | KInt n => Some (inl n)
  | KStr s => Some (inr s)
  end.

Definition key_of_code (c : option (Z + string)) : key :=
  match c with
  | None => KNone
  | Some (inl n) => KInt n
  | Some (inr s) => KStr s
  end.

#[global] Instance key_countable : Countable key.
Proof.
  apply (inj_countable' key_code key_of_code).
  intros []; reflexivity.
Defined.

(** [hash(v)]: the dictionary key of a value, or [TypeError]. *)
Definition dict_key (v : json) : result key :=
  match v with
  | JNull => Ok KNone
  | JBool b => Ok (KInt (if b then 1 else 0))
  | JNum n => Ok (KInt n)
  | JStr s => Ok (KStr s)
  | JArr _ | JObj _ => Raise TypeError
  end.

(** ** Requests, responses and the outside world *)

(** An outgoing [requests.post(url, headers=..., json=..., timeout=...)];
    [timeout = None] is a call made without the argument. *)
Record request : Type := {
  url : string;
  headers : list (string * string);
  json_arg : json;
  timeout : option Z
}.

(** What comes back: a status line and a body, [None] when the body is not
    JSON (so that [resp.json()] raises). *)
Record backend_response : Type := {
  status_code : Z;
  body_json : option json
}.

Inductive requests_error : Type :=
| ConnectionError
| Timeout.

Inductive post_outcome : Type :=
| PostRaises (e : requests_error)
| PostReturns (r : backend_response).

(** [resp.raise_for_status()] raises [HTTPError] for the 4xx and 5xx
    status codes, and for no other. *)
Definition raises_for_status (r : backend_response) : bool :=
  (400 <=? status_code r) && (status_code r <? 600).

(** [resp.json()] *)
Definition resp_json (r : backend_response) : result json :=
  match body_json r with
  | Some j => Ok j
  | None => Raise JSONDecodeError
  end.

(** Why PyJWT or the key client may raise inside the [try] of lines 46-53. *)
Inductive jwt_error : Type :=
| KeyFetchFailure
| DecodeError
| InvalidSignature
| InvalidAudience
| InvalidIssuer
| ExpiredSignature
| InvalidAlgorithm.

(** The world one request runs in: the key client, [jwt.decode] with the
    arguments the handler passes, and the backend behind [requests.post]. *)
Record world : Type := {
  get_signing_key_from_jwt : string -> jwt_error + string;
  jwt_decode :
    string -> string -> list string -> string -> string -> jwt_error + unit;
  requests_post : request -> post_outcome
}.

(** The inbound request: its Authorization header, if any, and its body as
    [request.get_json()] sees it ([None]: not JSON). *)
Record http_request : Type := {
  authorization : option string;
  get_json : option json
}.

(** What the handler returns: a JSON body and a status. *)
Record response : Type := {
  status : Z;
  body : json
}.

(** [jsonify(v)] and [jsonify(v), code] *)
Definition jsonify (v : json) : response := {| status := 200; body := v |}.
Definition jsonify_with (v : json) (code : Z) : response :=
  {| status := code; body := v |}.

(** ** The handler's monad *)

(** The two places of the handler that call the backend. *)
Inductive call_site : Type :=
| CreateSession   (* lines 82-85 *)
| SendMessage.    (* lines 99-102 *)

#[global] Instance call_site_eq_dec : EqDecision call_site.
Proof. solve_decision. Defined.

Record state : Type := {
  chat_sessions : gmap key json;
  calls : list (call_site * request)
}.

Definition M (A : Type) : Type := state -> result A * state.

Definition ret {A} (a : A) : M A := fun s => (Ok a, s).

Definition raise {A} (e : exn) : M A := fun s => (Raise e, s).

Definition bind {A B} (m : M A) (k : A -> M B) : M B :=
  fun s =>
    match m s with
    | (Ok a, s') => k a s'
    | (Raise e, s') => (Raise e, s')
    end.

Definition lift {A} (r : result A) : M A :=
  match r with
  | Ok a => ret a
  | Raise e => raise e
  end.

Notation "x <- m ;; k" := (bind m (fun x => k))
  (at level 100, m at next level, right associativity).

(** [k in chat_sessions] *)
Definition sessions_has (k : key) : M bool :=
  fun s => (Ok (bool_decide (is_Some (chat_sessions s !! k))), s).

(** [chat_sessions[k]] *)
Definition sessions_index (k : key) : M json :=
  fun s =>
    match chat_sessions s !! k with
    | Some v => (Ok v, s)
    | None => (Raise KeyError, s)
    end.

(** [chat_sessions[k] = v] *)
Definition sessions_store (k : key) (v : json) : M unit :=
  fun s =>
    (Ok tt, {| chat_sessions := <[k := v]> (chat_sessions s); calls := calls s |}).

(** [chat_sessions.pop(k, None)] *)
Definition sessions_pop (k : key) : M unit :=
  fun s =>
    (Ok tt, {| chat_sessions := delete k (chat_sessions s); calls := calls s |}).

(** The state once a call from [site] has been logged. *)
Definition logged (site : call_site) (r : request) (s : state) : state :=
  {| chat_sessions := chat_sessions s; calls := calls s ++ [(site, r)] |}.

(** [requests.post(...)] from the given place: the call is logged and the
    world answers it. *)
Definition post (w : world) (site : call_site) (r : request) : M post_outcome :=
  fun s => (Ok (requests_post w r), logged site r s).

(** Exceptions alone, for the parts of the handler that touch no state. *)
Definition rbind {A B} (r : result A) (k : A -> result B) : result B :=
  match r with
  | Ok a => k a
  | Raise e => Raise e
  end.

Notation "x <-? r ;; k" := (rbind r (fun x => k))
  (at level 100, r at next level, right associativity).

(** ** Reading events and call logs *)

(** The member [k] of a JSON object, if [v] is one and has it. *)
Definition member (k : string) (v : json) : option json :=
  match v with
  | JObj fields => Py.assoc k fields
  | _ => None
  end.

Definition is_object (v : json) : Prop := exists fields, v = JObj fields.

(** A member that is missing or is itself an object. *)
Definition absent_or_object (k : string) (v : json) : Prop :=
  member k v = None \/ exists fields, member k v = Some (JObj fields).

(** [event["message"]["text"]] and [event["space"]["name"]], where present. *)
Definition text_of (event : json) : option json :=
  member "message" event ≫= member "text".

Definition space_name_of (event : json) : option json :=
  member "space" event ≫= member "name".


(** The inbound body is a [MESSAGE] event with the given text. *)
Definition message_event (req : http_request) (text : string) : Prop :=
  exists event,
    get_json req = Some event
    /\ member "type" event = Some (JStr "MESSAGE")
    /\ text_of event = Some (JStr text)
    /\ text <> "".

(** The inbound body is a [REMOVED_FROM_SPACE] event. *)
Definition removed_event (req : http_request) : Prop :=
  exists event,
    get_json req = Some event
    /\ member "type" event = Some (JStr "REMOVED_FROM_SPACE").

(** The event of the request names the conversation [C]. *)
Definition in_space (req : http_request) (C : string) : Prop :=
  exists event,
    get_json req = Some event /\ space_name_of event = Some (JStr C).

(** The number of calls of a log made from the given place. *)
Definition count_site (site : call_site) (log : list (call_site * request)) : nat :=
  length (filter (fun c => c.1 = site) log).

(** The backend answered and [raise_for_status] let the answer through. *)
Definition answered (w : world) (r : request) (resp : backend_response) : Prop :=
  requests_post w r = PostReturns resp /\ raises_for_status resp = false.

(** The backend call failed inside the handler's [try]: [requests.post]
    raised, or [raise_for_status] did. *)
Definition failed (w : world) (r : request) : Prop :=
  (exists e, requests_post w r = PostRaises e)
  \/ (exists resp, requests_post w r = PostReturns resp
                   /\ raises_for_status resp = true).

(** ** Start-up: the configuration read from the environment

    Lines 14-33.  [os.environ], once [load_dotenv()] has run, is a finite
    map from names to values. *)

Module Startup.

(** How the module's top level ends: it goes on with a value, or
    [get_required_env] raises [ValueError] with a message. *)
Inductive outcome (A : Type) : Type :=
| Loaded (a : A)
| ValueError (message : string).
Arguments Loaded {A} a.
Arguments ValueError {A} message.

(** Lines 14-19: [not value] holds of a missing value and of the empty one. *)
Definition get_required_env (environ : gmap string string) (key : string)
  : outcome string :=
  match environ !! key with
  | Some value =>
      if String.eqb value ""
      then ValueError ("Missing required environment variable: " +:+ key)
      else Loaded value
  | None => ValueError ("Missing required environment variable: " +:+ key)
  end.

(** Lines 21-23: [os.environ.get(key, default)]. *)
Definition get_optional_env (environ : gmap string string) (key dflt : string)
  : string :=
  default dflt (environ !! key).

Record config : Type := {
  project_number : string;   (* GCP_PROJECT_NUMBER *)
  api_url : string;          (* OWUI_API_URL *)
  api_key : string           (* OWUI_API_KEY *)
}.

Definition default_api_url : string := "https://cojovi.ngrok.dev:3000/api/v1".

(** Lines 26-33, in the order the module runs them. *)
Definition load (environ : gmap string string) : outcome config :=
  match get_required_env environ "GCP_PROJECT_NUMBER" with
  | ValueError m => ValueError m
  | Loaded project =>
      let url := get_optional_env environ "OWUI_API_URL" default_api_url in
      match get_required_env environ "OWUI_API_KEY" with
      | ValueError m => ValueError m
      | Loaded key =>
          Loaded {| project_number := project; api_url := url; api_key := key |}
      end
  end.

End Startup.

(** ** Sample traffic

    Concrete requests, events and worlds on which the handler is run. *)

Module Sample.

Definition project : string := "1234567890".
Definition base : string := "https://owui.example/api/v1".
Definition api_key : string := "sk-sample".

(** No sample renders a list or a dict. *)
Definition no_repr (v : json) : string := "".

Definition message_in (space text : string) : json :=
  JObj [("type", JStr "MESSAGE");
        ("message", JObj [("text", JStr text)]);
        ("space", JObj [("name", JStr space)])].


Definition removed_from (space : string) : json :=
  JObj [("type", JStr "REMOVED_FROM_SPACE");
        ("space", JObj [("name", JStr space)])].

(** A card click: none of the three event types, with a message attached. *)
Definition card_clicked (space text : string) : json :=
  JObj [("type", JStr "CARD_CLICKED");
        ("message", JObj [("text", JStr text)]);
        ("space", JObj [("name", JStr space)])].

(** A type the handler does not know, and no message. *)
Definition widget_updated : json := JObj [("type", JStr "WIDGET_UPDATED")].

Definition signed (event : json) : http_request :=
  {| authorization := Some "Bearer good-token"; get_json := Some event |}.

Definition unsigned (event : json) : http_request :=
  {| authorization := None; get_json := Some event |}.

Definition answers (code : Z) (B : json) : post_outcome :=
  PostReturns {| status_code := code; body_json := Some B |}.

(** A 200 whose body is not JSON. *)
Definition answers_text : post_outcome :=
  PostReturns {| status_code := 200; body_json := None |}.

(** A world whose tokens verify, and whose backend answers [created] at
    [/chats/new] and [sent] everywhere else. *)
Definition backend (created sent : post_outcome) : world :=
  {| get_signing_key_from_jwt := fun _ => inr "key";
     jwt_decode := fun _ _ _ _ _ => inr tt;
     requests_post :=
       fun r => if String.eqb (url r) (base +:+ "/chats/new")
                then created else sent |}.

(** A world in which every token has expired. *)
Definition expired : world :=
  {| get_signing_key_from_jwt := fun _ => inr "key";
     jwt_decode := fun _ _ _ _ _ => inl ExpiredSignature;
     requests_post := fun _ => PostRaises ConnectionError |}.

(** A world in which the token "good-token" verifies and no other text
    does, with the same backend as [backend]. *)
Definition knows_good_token (created sent : post_outcome) : world :=
  {| get_signing_key_from_jwt :=
       fun token => if String.eqb token "good-token" then inr "key"
                    else inl DecodeError;
     jwt_decode := fun _ _ _ _ _ => inr tt;
     requests_post := requests_post (backend created sent) |}.

Definition fresh : state := {| chat_sessions := ∅; calls := [] |}.

(** A process in which the conversation [space] already has [chat_id]. *)
Definition with_session (space : string) (chat_id : json) : state :=
  {| chat_sessions := {[ KStr space := chat_id ]}; calls := [] |}.



(** A message whose [space.name] is a list. *)
Definition message_in_a_list (text : string) : json :=
  JObj [("type", JStr "MESSAGE");
        ("message", JObj [("text", JStr text)]);
        ("space", JObj [("name", JArr [JStr "spaces/A"])])].

(** An environment that sets the API key and nothing else. *)
Definition key_only : gmap string string := {[ "OWUI_API_KEY" := "sk-sample" ]}.

End Sample.

(** ** The handler *)

Section Webhook.

(** The configuration read from the environment at start-up, and Python's
    [repr] of lists and dicts (see [Py.str]). *)
Variables GCP_PROJECT_NUMBER OWUI_API_URL OWUI_API_KEY : string.
Variable repr : json -> string.

(** *** Lines 41-53: the bearer token and its verification *)

(** Lines 41-42. *)
Definition bearer_token (req : http_request) : option string :=
  let auth_header := default "" (authorization req) in
  if Py.startswith auth_header "Bearer "
  then Some (Py.last_piece (Py.split auth_header "Bearer "))
  else None.

(** Lines 47-49: any exception of the two calls is a failure. *)
Definition verify (w : world) (token : string) : jwt_error + unit :=
  match get_signing_key_from_jwt w token with
  | inl e => inl e
  | inr signing_key =>
      jwt_decode w token signing_key ["RS256"] GCP_PROJECT_NUMBER
        "chat@system.gserviceaccount.com"
  end.

Definition unauthorized : response :=
  jsonify_with (JObj [("error", JStr "Unauthorized")]) 401.

(** Lines 41-53: [Some r] when the request is turned away with [r]. *)
Definition authenticate (w : world) (req : http_request) : option response :=
  match bearer_token req with
  | None => Some unauthorized
  | Some token =>
      if String.eqb token "" then Some unauthorized
      else match verify w token with
           | inl _ => Some unauthorized
           | inr _ => None
           end
  end.

(** *** Lines 55-78: the event and its kind *)

(** Either the handler has its answer, or a message is to be forwarded. *)
Inductive routed : Type :=
| Reply (r : response)
| Forward (space_id user_message : json).

Definition welcome_text (user_name : json) : string :=
  "Hello " +:+ Py.str repr user_name
    +:+ ", I'm your OpenWebUI bot! Ask me anything.".

Definition route (req : http_request) : M routed :=
  event <- lift (match get_json req with
                 | Some j => Ok j
                 | None => Raise BadRequest
                 end) ;;
  event_type <- lift (Py.get event "type" JNull) ;;
  if Py.eq_str event_type "ADDED_TO_SPACE" then
    user <- lift (Py.get event "user" (JObj [])) ;;
    user_name <- lift (Py.get user "displayName" (JStr "there")) ;;
    ret (Reply (jsonify (JObj [("text", JStr (welcome_text user_name))])))
  else if Py.eq_str event_type "REMOVED_FROM_SPACE" then
    space_obj <- lift (Py.get event "space" (JObj [])) ;;
    space <- lift (Py.get space_obj "name" JNull) ;;
    k <- lift (dict_key space) ;;
    known <- sessions_has k ;;
    _ <- (if known then sessions_pop k else ret tt) ;;
    ret (Reply (jsonify (JObj [])))
  else
    message <- lift (Py.get event "message" (JObj [])) ;;
    user_message <- lift (Py.get message "text" (JStr "")) ;;
    if negb (Py.truthy user_message) then ret (Reply (jsonify (JObj [])))
    else
      space_obj <- lift (Py.get event "space" (JObj [])) ;;
      space_id <- lift (Py.get space_obj "name" JNull) ;;
      ret (Forward space_id user_message).

(** *** Lines 79-94: the session of the conversation *)

Definition backend_headers : list (string * string) :=
  [("Authorization", "Bearer " +:+ OWUI_API_KEY);
   ("Content-Type", "application/json")].

(** Lines 82-85. *)
Definition create_request : request :=
  {| url := OWUI_API_URL +:+ "/chats/new";
     headers := backend_headers;
     json_arg := JObj [("chat", JObj [])];
     timeout := None |}.

Definition apology : response :=
  jsonify (JObj [("text", JStr "Sorry, I couldn't start a session with the AI.")]).

(** Line 90: [resp.json().get("id") or resp.json().get("chat_id")]. *)
Definition session_id_of (resp : backend_response) : result json :=
  j <-? resp_json resp ;;
  id <-? Py.get j "id" JNull ;;
  if Py.truthy id then Ok id
  else
    j' <-? resp_json resp ;;
    Py.get j' "chat_id" JNull.

(** Lines 81-92. *)
Definition create_session (w : world) (k : key) : M (response + json) :=
  out <- post w CreateSession create_request ;;
  match out with
  | PostRaises _ => ret (inl apology)
  | PostReturns resp =>
      if raises_for_status resp then ret (inl apology)
      else
        chat_id <- lift (session_id_of resp) ;;
        _ <- sessions_store k chat_id ;;
        ret (inr chat_id)
  end.

(** Lines 79 and 94: the test [space_id not in chat_sessions] and, when
    the key is there, the read of line 94.  [inl k]: no session under the
    key [k] yet. *)
Definition find_session (space_id : json) : M (key + json) :=
  k <- lift (dict_key space_id) ;;
  known <- sessions_has k ;;
  if negb known then ret (inl k)
  else
    chat_id <- sessions_index k ;;
    ret (inr chat_id).

(** Lines 79-94. *)
Definition session_for (w : world) (space_id : json) : M (response + json) :=
  found <- find_session space_id ;;
  match found with
  | inl k => create_session w k
  | inr chat_id => ret (inr chat_id)
  end.

(** *** Lines 96-126: the message and the reply *)

(** Lines 98-102. *)
Definition send_request (chat_id user_message : json) : request :=
  {| url := OWUI_API_URL +:+ "/chats/" +:+ Py.str repr chat_id;
     headers := backend_headers;
     json_arg :=
       JObj [("chat", JObj [("content", user_message); ("role", JStr "user")])];
     timeout := Some 15 |}.

Definition unavailable : response :=
  jsonify
    (JObj [("text", JStr "⚠️ Error: The AI service is unavailable at the moment.")]).

Definition no_response : json := JStr "*(No response from AI)*".

(** Lines 111-118: the reply found under ['chat'], or [""]. *)
Definition reply_under_chat (owui_data : json) : result json :=
  has_chat <-? Py.has owui_data "chat" ;;
  if has_chat then
    chat <-? Py.index owui_data "chat" ;;
    content <-? Py.get chat "content" JNull ;;
    role <-? Py.get chat "role" JNull ;;
    Ok (if Py.eq_str role "assistant" && Py.truthy content
        then content else JStr "")
  else Ok (JStr "").

(** Line 121. *)
Definition reply_elsewhere (owui_data : json) : result json :=
  assistant <-? Py.get owui_data "assistant" (JObj []) ;;
  content <-? Py.get assistant "content" JNull ;;
  if Py.truthy content then Ok content
  else Py.get owui_data "content" (JStr "").

(** Lines 111-123. *)
Definition extract_reply (owui_data : json) : result json :=
  found <-? reply_under_chat owui_data ;;
  found <-? (if negb (Py.truthy found) then reply_elsewhere owui_data
             else Ok found) ;;
  Ok (if negb (Py.truthy found) then no_response else found).

(** Lines 96-126. *)
Definition forward (w : world) (chat_id user_message : json) : M response :=
  out <- post w SendMessage (send_request chat_id user_message) ;;
  match out with
  | PostRaises _ => ret unavailable
  | PostReturns resp =>
      if raises_for_status resp then ret unavailable
      else
        owui_data <- lift (resp_json resp) ;;
        assistant_reply <- lift (extract_reply owui_data) ;;
        ret (jsonify (JObj [("text", assistant_reply)]))
  end.

(** *** The whole of [webhook] *)

Definition webhook (w : world) (req : http_request) : M response :=
  match authenticate w req with
  | Some denied => ret denied
  | None =>
      r <- route req ;;
      match r with
      | Reply resp => ret resp
      | Forward space_id user_message =>
          s <- session_for w space_id ;;
          match s with
          | inl resp => ret resp
          | inr chat_id => forward w chat_id user_message
          end
      end
  end.

(** *** Two requests in flight

    The handler takes no lock.  A request that is being handled stands at
    one of three places: it has just arrived; it found no session at line
    79 and is about to call the backend at line 82; it has a session id
    and is about to call the backend at line 99.  A step runs a request
    from its place to the next one; requests handled by different threads
    take their steps in any order.  (Python may switch threads at finer
    points as well; every order of these steps is an order of the real
    handler's, whose threads give way while a backend call is awaited.) *)

Inductive thread : Type :=
| Arrived (w : world) (req : http_request)
| Creating (w : world) (k : key) (user_message : json)
| Sending (w : world) (chat_id user_message : json)
| Finished (r : result response).

Definition finish (m : M response) : state -> thread * state :=
  fun s => let '(r, s') := m s in (Finished r, s').

Definition step (t : thread) : state -> thread * state :=
  fun s =>
    match t with
    | Arrived w req =>
        match authenticate w req with
        | Some denied => (Finished (Ok denied), s)
        | None =>
            match route req s with
            | (Raise e, s') => (Finished (Raise e), s')
            | (Ok (Reply resp), s') => (Finished (Ok resp), s')
            | (Ok (Forward space_id user_message), s') =>
                match find_session space_id s' with
                | (Raise e, s'') => (Finished (Raise e), s'')
                | (Ok (inl k), s'') => (Creating w k user_message, s'')
                | (Ok (inr chat_id), s'') => (Sending w chat_id user_message, s'')
                end
            end
        end
    | Creating w k user_message =>
        match create_session w k s with
        | (Raise e, s') => (Finished (Raise e), s')
        | (Ok (inl resp), s') => (Finished (Ok resp), s')
        | (Ok (inr chat_id), s') => (Sending w chat_id user_message, s')
        end
    | Sending w chat_id user_message => finish (forward w chat_id user_message) s
    | Finished r => (Finished r, s)
    end.

(** Which of two threads takes the next step. *)
Inductive turn : Type := First | Second.

Fixpoint run (sched : list turn) (t1 t2 : thread) (s : state)
  : thread * thread * state :=
  match sched with
  | [] => (t1, t2, s)
  | First :: sched' => let '(t1', s') := step t1 s in run sched' t1' t2 s'
  | Second :: sched' => let '(t2', s') := step t2 s in run sched' t1 t2' s'
  end.

(** One request handled with no other in flight: its three steps. *)
Definition alone (w : world) (req : http_request) (s : state) : thread * state :=
  let '(t1, s1) := step (Arrived w req) s in
  let '(t2, s2) := step t1 s1 in
  step t2 s2.

(** *** The reply, as the specification words it

    Section 4.3: three ways of reading the backend's answer, tried in
    order, each giving a text or nothing; the first non-empty text wins,
    and when there is none the reply is the fixed sentinel. *)

Definition non_empty (v : option json) : option json :=
  match v with
  | Some x => if Py.truthy x then Some x else None
  | None => None
  end.

(** (1) the most recent chat turn, when its role is "assistant" *)
Definition chat_turn (B : json) : option json :=
  match member "chat" B with
  | Some chat =>
      match member "role" chat with
      | Some role =>
          if Py.eq_str role "assistant" then non_empty (member "content" chat)
          else None
      | None => None
      end
  | None => None
  end.

(** (2) the flat assistant content *)
Definition assistant_content (B : json) : option json :=
  non_empty (member "assistant" B ≫= member "content").

(** (3) the top-level content *)
Definition top_content (B : json) : option json :=
  non_empty (member "content" B).

Definition spec_reply (B : json) : json :=
  default no_response
    (head (omap (fun read => read B) [chat_turn; assistant_content; top_content])).

(** *** Authorization headers *)

(** The header has the form [Bearer <token>] with a token. *)
Definition bearer_form (req : http_request) : Prop :=
  exists token, token <> "" /\ authorization req = Some ("Bearer " +:+ token).

(** The token the handler extracts fails verification. *)
Definition verification_fails (w : world) (req : http_request) : Prop :=
  exists token e, bearer_token req = Some token /\ verify w token = inl e.

(** *** Shapes the handler relies on *)

(** A backend answer the reply can be read from: an object whose [chat]
    and [assistant] members, where present, are objects. *)
Definition well_shaped_body (B : json) : Prop :=
  is_object B /\ absent_or_object "chat" B /\ absent_or_object "assistant" B.

(** The event's [type] is the given name. *)
Definition event_type_is (event : json) (name : string) : Prop :=
  member "type" event = Some (JStr name).

(** An event the handler can take apart: an object whose [user],
    [message] and [space] members, where present, are objects, and whose
    [space.name] can be a dictionary key. *)
Definition well_shaped_event (event : json) : Prop :=
  is_object event
  /\ absent_or_object "user" event
  /\ absent_or_object "message" event
  /\ absent_or_object "space" event
  /\ exists k, dict_key (default JNull (space_name_of event)) = Ok k.

(** The two bodies the handler answers with when it does answer. *)
Definition plain_reply (r : response) : Prop :=
  status r = 200 /\ (body r = JObj [] \/ exists t, body r = JObj [("text", t)]).

(** *** Schedules *)

#[global] Instance turn_eq_dec : EqDecision turn.
Proof. solve_decision. Defined.

(** The number of turns of a schedule that go to the given thread. *)
Definition turns (who : turn) (sched : list turn) : nat :=
  length (filter (fun t => t = who) sched).

Definition other (who : turn) : turn :=
  match who with
  | First => Second
  | Second => First
  end.

(** [run] with the thread [a] moving on the turns of [lead] and [b] on the
    other turns; the threads come back in the order given. *)
Definition run_from (lead : turn) (sched : list turn) (a b : thread) (s : state)
  : thread * thread * state :=
  match lead with
  | First => run sched a b s
  | Second => let '(tb, ta, s') := run sched b a s in (ta, tb, s')
  end.

(** A thread that has found no session and has its createSession call
    still to make. *)
Definition pending (t : thread) : nat :=
  match t with
  | Creating _ _ _ => 1%nat
  | _ => 0%nat
  end.

(** A thread that is past the lookup of line 79. *)
Definition past_lookup (t : thread) : Prop :=
  match t with
  | Arrived _ _ => False
  | _ => True
  end.

(** ** Properties *)

(** *** Strings *)

Lemma startswith_app (p s : string) :
  Py.startswith s p = true -> exists t, s = p +:+ t.
Proof.
  revert s. induction p as [|c p IH]; intros s H.
  - exists s. reflexivity.
  - destruct s as [|d s]; simpl in H; [discriminate|].
    destruct (Ascii.eqb c d) eqn:E; [|discriminate].
    apply Ascii.eqb_eq in E. subst d.
    destruct (IH s H) as [t ->]. exists t. reflexivity.
Qed.

(** A text with no occurrence of the separator is one piece. *)
Lemma split_from_plain sep cur t :
  Py.contains t sep = false ->
  Py.split_from sep O cur t
  = [string_of_list_ascii (rev cur ++ list_ascii_of_string t)].
Proof.
  revert cur. induction t as [|c t IH]; intros cur H.
  - simpl. rewrite app_nil_r. reflexivity.
  - cbn [Py.contains] in H. apply orb_false_iff in H as [Hs Hc].
    cbn [Py.split_from]. rewrite Hs, (IH _ Hc). simpl.
    rewrite <- app_assoc. reflexivity.
Qed.

(** The token of a header [Bearer t] is [t] itself, as long as [t] does not
    contain "Bearer " again; line 42 takes what follows the last one. *)
Lemma bearer_token_plain req t :
  authorization req = Some ("Bearer " +:+ t) ->
  Py.contains t "Bearer " = false ->
  bearer_token req = Some t.
Proof.
  intros Hh Hc. unfold bearer_token. rewrite Hh. simpl.
  change ("" +:+ t) with t.
  assert (Hnil : Py.startswith t "" = true) by (destruct t; reflexivity).
  rewrite Hnil. unfold Py.split. simpl. change ("" +:+ t) with t.
  rewrite Hnil. simpl. rewrite (split_from_plain _ _ _ Hc). simpl.
  rewrite string_of_list_ascii_of_string. reflexivity.
Qed.

(** *** Running the monad *)

Lemma bind_ok {A B} (m : M A) (k : A -> M B) s a s' :
  m s = (Ok a, s') -> bind m k s = k a s'.
Proof. intros H. unfold bind. rewrite H. reflexivity. Qed.

Lemma member_object k v x : member k v = Some x -> is_object v.
Proof. destruct v; try discriminate. intros _. eexists; reflexivity. Qed.

(** *** Authentication *)

Lemma no_bearer_form_no_token req :
  ~ bearer_form req ->
  bearer_token req = None \/ bearer_token req = Some "".
Proof.
  intros Hnot. unfold bearer_token.
  destruct (authorization req) as [h|] eqn:Hh; simpl; [|left; reflexivity].
  destruct (Py.startswith h "Bearer ") eqn:Hs; [|left; reflexivity].
  right. destruct (startswith_app _ _ Hs) as [t ->].
  destruct t as [|c t]; [reflexivity|].
  exfalso. apply Hnot. exists (String c t). split; [discriminate|].
  rewrite Hh. reflexivity.
Qed.

Lemma authenticate_denies w req :
  ~ bearer_form req \/ verification_fails w req ->
  authenticate w req = Some unauthorized.
Proof.
  intros [Hnot | (token & e & Htok & Hver)]; unfold authenticate.
  - destruct (no_bearer_form_no_token req Hnot) as [-> | ->]; reflexivity.
  - rewrite Htok, Hver. destruct (String.eqb token ""); reflexivity.
Qed.

(** C1 (amended).  A request whose Authorization header is absent or not of
    the form [Bearer <token>], or in which the text after the last
    "Bearer " of the header, which is the token line 42 extracts, fails
    verification for whatever reason, is answered 401 with the body
    [{"error": "Unauthorized"}]; the session dictionary is as it was and no
    backend call was made. *)
Theorem unauthenticated_is_rejected w req s :
  ~ bearer_form req \/ verification_fails w req ->
  webhook w req s
  = (Ok {| status := 401; body := JObj [("error", JStr "Unauthorized")] |}, s).
Proof.
  intros H. unfold webhook. rewrite (authenticate_denies w req H). reflexivity.
Qed.

(** *** Call logs *)

Lemma count_site_app site (l l' : list (call_site * request)) :
  count_site site (l ++ l') = (count_site site l + count_site site l')%nat.
Proof. unfold count_site. rewrite filter_app, length_app. reflexivity. Qed.

Lemma count_site_one site site' r :
  count_site site [(site', r)] = if decide (site' = site) then 1%nat else 0%nat.
Proof.
  unfold count_site. rewrite filter_cons, filter_nil. simpl.
  destruct (decide (site' = site)); reflexivity.
Qed.

(** *** The two backend calls *)

Lemma create_session_failed w k s :
  failed w create_request ->
  create_session w k s = (Ok (inl apology), logged CreateSession create_request s).
Proof.
  intros [[e He] | (resp & Hr & Hs)]; unfold create_session, bind, post;
    [rewrite He | rewrite Hr, Hs]; reflexivity.
Qed.

Lemma create_session_ok w k s resp chat_id :
  answered w create_request resp ->
  session_id_of resp = Ok chat_id ->
  create_session w k s
  = (Ok (inr chat_id),
     {| chat_sessions := <[k := chat_id]> (chat_sessions s);
        calls := calls s ++ [(CreateSession, create_request)] |}).
Proof.
  intros [Hr Hs] Hid. unfold create_session, bind, post.
  rewrite Hr, Hs, Hid. reflexivity.
Qed.

Lemma create_session_calls w k s :
  calls (create_session w k s).2 = calls s ++ [(CreateSession, create_request)].
Proof.
  unfold create_session, bind, post.
  destruct (requests_post w create_request) as [e|resp]; [reflexivity|].
  destruct (raises_for_status resp); [reflexivity|].
  destruct (session_id_of resp); reflexivity.
Qed.

Lemma forward_state w chat_id user_message s :
  (forward w chat_id user_message s).2
  = logged SendMessage (send_request chat_id user_message) s.
Proof.
  unfold forward, bind, post.
  destruct (requests_post w _) as [e|resp]; [reflexivity|].
  destruct (raises_for_status resp); [reflexivity|].
  simpl. destruct (resp_json resp) as [B|e]; [|reflexivity].
  simpl. destruct (extract_reply B); reflexivity.
Qed.

Lemma forward_failed w chat_id user_message s :
  failed w (send_request chat_id user_message) ->
  forward w chat_id user_message s
  = (Ok unavailable, logged SendMessage (send_request chat_id user_message) s).
Proof.
  intros [[e He] | (resp & Hr & Hs)]; unfold forward, bind, post;
    [rewrite He | rewrite Hr, Hs]; reflexivity.
Qed.

(** *** Routing *)

(** An event that is neither a join nor a removal and carries a non-empty
    text is forwarded, under whatever [space.name] it has. *)
Lemma route_forward req event text s :
  get_json req = Some event ->
  Py.eq_str (default JNull (member "type" event)) "ADDED_TO_SPACE" = false ->
  Py.eq_str (default JNull (member "type" event)) "REMOVED_FROM_SPACE" = false ->
  text_of event = Some text ->
  Py.truthy text = true ->
  absent_or_object "space" event ->
  route req s = (Ok (Forward (default JNull (space_name_of event)) text), s).
Proof.
  intros Hj Ha Hr Ht Htruthy Hsp. unfold route. rewrite Hj.
  unfold text_of in Ht.
  destruct (member "message" event) as [m|] eqn:Hm; [|discriminate].
  simpl in Ht.
  destruct (member_object _ _ _ Hm) as [fs ->].
  destruct (member_object _ _ _ Ht) as [mfs ->].
  simpl in *. unfold bind at 1. simpl.
  unfold bind at 1. simpl. rewrite Ha, Hr.
  unfold bind at 1. simpl. rewrite Hm. simpl.
  unfold bind at 1. simpl. rewrite Ht. simpl. rewrite Htruthy. simpl.
  unfold space_name_of. simpl.
  destruct Hsp as [Hnone | [sfs Hsome]]; simpl in *.
  - rewrite Hnone. reflexivity.
  - rewrite Hsome. reflexivity.
Qed.

Lemma route_message req text s :
  message_event req text ->
  (exists event, get_json req = Some event /\ absent_or_object "space" event) ->
  exists event,
    get_json req = Some event
    /\ route req s
       = (Ok (Forward (default JNull (space_name_of event)) (JStr text)), s).
Proof.
  intros (event & Hj & Hty & Ht & Hne) (event' & Hj' & Hsp).
  rewrite Hj in Hj'. injection Hj' as <-.
  exists event. split; [assumption|].
  apply route_forward; try assumption.
  - rewrite Hty. reflexivity.
  - rewrite Hty. reflexivity.
  - simpl. destruct text; [congruence | reflexivity].
Qed.

Lemma in_space_object req C event :
  in_space req C -> get_json req = Some event ->
  space_name_of event = Some (JStr C) /\ absent_or_object "space" event.
Proof.
  intros (event' & Hj' & Hn) Hj. rewrite Hj in Hj'. injection Hj' as <-.
  split; [assumption|].
  unfold space_name_of in Hn.
  destruct (member "space" event) as [sp|] eqn:Hsp; [|discriminate].
  simpl in Hn. destruct (member_object _ _ _ Hn) as [sfs ->].
  right. exists sfs. assumption.
Qed.

(** A removal forgets the session of the key its [space.name] hashes to. *)
Lemma route_removed req event k s :
  get_json req = Some event ->
  member "type" event = Some (JStr "REMOVED_FROM_SPACE") ->
  absent_or_object "space" event ->
  dict_key (default JNull (space_name_of event)) = Ok k ->
  route req s
  = (Ok (Reply (jsonify (JObj []))),
     {| chat_sessions := delete k (chat_sessions s); calls := calls s |}).
Proof.
  intros Hj Hty Hsp Hk. unfold route. rewrite Hj.
  destruct (member_object _ _ _ Hty) as [fs ->]. simpl in *.
  unfold bind at 1. simpl. unfold bind at 1. simpl. rewrite Hty. simpl.
  unfold space_name_of in Hk. simpl in Hk.
  assert (Hget : exists sp,
             Py.get (default (JObj []) (Py.assoc "space" fs)) "name" JNull = Ok sp
             /\ dict_key sp = Ok k).
  { destruct Hsp as [Hnone | [sfs Hsome]]; simpl in *.
    - rewrite Hnone in *. simpl in *. eexists; split; [reflexivity|assumption].
    - rewrite Hsome in *. simpl in *. eexists; split; [reflexivity|assumption]. }
  destruct Hget as (sp & Hget & Hk').
  unfold bind at 1. simpl. unfold bind at 1. rewrite Hget. simpl.
  unfold bind at 1. rewrite Hk'. simpl.
  unfold bind, sessions_has, sessions_pop, ret. simpl.
  destruct (chat_sessions s !! k) as [v|] eqn:Hl; simpl.
  - reflexivity.
  - rewrite delete_id by assumption. destruct s; reflexivity.
Qed.

(** *** A forwarded message *)

Lemma find_session_known space_id k chat_id s :
  dict_key space_id = Ok k -> chat_sessions s !! k = Some chat_id ->
  find_session space_id s = (Ok (inr chat_id), s).
Proof.
  intros Hk Hl. unfold find_session, bind, sessions_has, sessions_index.
  rewrite Hk. simpl. rewrite Hl. simpl. rewrite Hl. reflexivity.
Qed.

Lemma find_session_new space_id k s :
  dict_key space_id = Ok k -> chat_sessions s !! k = None ->
  find_session space_id s = (Ok (inl k), s).
Proof.
  intros Hk Hl. unfold find_session, bind, sessions_has.
  rewrite Hk. simpl. rewrite Hl. reflexivity.
Qed.

Lemma webhook_known w req space_id user_message k chat_id s :
  authenticate w req = None ->
  route req s = (Ok (Forward space_id user_message), s) ->
  dict_key space_id = Ok k -> chat_sessions s !! k = Some chat_id ->
  webhook w req s = forward w chat_id user_message s.
Proof.
  intros Ha Hr Hk Hl. unfold webhook. rewrite Ha.
  rewrite (bind_ok _ _ _ _ _ Hr). unfold session_for.
  unfold bind at 1. unfold bind at 1.
  rewrite (find_session_known _ _ _ _ Hk Hl). reflexivity.
Qed.

Lemma webhook_new w req space_id user_message k s :
  authenticate w req = None ->
  route req s = (Ok (Forward space_id user_message), s) ->
  dict_key space_id = Ok k -> chat_sessions s !! k = None ->
  webhook w req s
  = bind (create_session w k)
      (fun r => match r with
                | inl resp => ret resp
                | inr chat_id => forward w chat_id user_message
                end) s.
Proof.
  intros Ha Hr Hk Hl. unfold webhook. rewrite Ha.
  rewrite (bind_ok _ _ _ _ _ Hr). unfold session_for.
  unfold bind at 1. unfold bind at 1.
  rewrite (find_session_new _ _ _ Hk Hl). reflexivity.
Qed.

(** What a forwarded message does to the state, by whether the key of
    its conversation has a session. *)
Lemma message_flow w req space_id user_message k s :
  authenticate w req = None ->
  route req s = (Ok (Forward space_id user_message), s) ->
  dict_key space_id = Ok k ->
  (chat_sessions s !! k = None ->
     count_site CreateSession (calls (webhook w req s).2)
     = S (count_site CreateSession (calls s))
     /\ forall resp chat_id,
          answered w create_request resp ->
          session_id_of resp = Ok chat_id ->
          chat_sessions (webhook w req s).2 !! k = Some chat_id)
  /\ (forall chat_id,
        chat_sessions s !! k = Some chat_id ->
        count_site CreateSession (calls (webhook w req s).2)
        = count_site CreateSession (calls s)
        /\ calls (webhook w req s).2
           = calls s ++ [(SendMessage, send_request chat_id user_message)]
        /\ chat_sessions (webhook w req s).2 = chat_sessions s).
Proof.
  intros Ha Hr Hk. split.
  - intros Hl. rewrite (webhook_new _ _ _ _ _ _ Ha Hr Hk Hl). split.
    + pose proof (create_session_calls w k s) as Hc. unfold bind.
      destruct (create_session w k s) as [[[resp|chat_id]|e] s'];
        simpl in Hc |- *.
      * rewrite Hc, count_site_app, count_site_one. simpl. lia.
      * rewrite forward_state. simpl.
        rewrite Hc, !count_site_app, !count_site_one. simpl. lia.
      * rewrite Hc, count_site_app, count_site_one. simpl. lia.
    + intros resp chat_id Hans Hid. unfold bind.
      rewrite (create_session_ok _ k s _ _ Hans Hid).
      rewrite forward_state. simpl. apply lookup_insert_eq.
  - intros chat_id Hl. rewrite (webhook_known _ _ _ _ _ _ _ Ha Hr Hk Hl).
    rewrite forward_state. simpl.
    rewrite count_site_app, count_site_one. simpl.
    repeat split; try reflexivity. lia.
Qed.



(** *** The reply *)

Lemma extract_reply_spec B :
  well_shaped_body B -> extract_reply B = Ok (spec_reply B).
Proof.
  intros ([fs ->] & Hchat & Hasst).
  unfold extract_reply, reply_under_chat, reply_elsewhere, spec_reply,
    chat_turn, assistant_content, top_content, non_empty.
  unfold absent_or_object in *. simpl in *.
  destruct Hchat as [-> | [cfs ->]]; destruct Hasst as [-> | [afs ->]]; simpl;
    repeat match goal with
      | |- context [Py.assoc ?k ?l] => destruct (Py.assoc k l) eqn:?; simpl
      | |- context [Py.eq_str ?v ?n] => destruct (Py.eq_str v n) eqn:?; simpl
      | |- context [Py.truthy ?v] =>
          lazymatch v with
          | JStr "" => fail
          | _ => destruct (Py.truthy v) eqn:?; simpl
          end
      end;
    try reflexivity; try congruence; simpl in *; discriminate.
Qed.

Lemma non_empty_truthy v x : non_empty v = Some x -> Py.truthy x = true.
Proof.
  destruct v as [y|]; simpl; [|discriminate].
  destruct (Py.truthy y) eqn:E; [|discriminate]. congruence.
Qed.

Lemma chat_turn_truthy B x : chat_turn B = Some x -> Py.truthy x = true.
Proof.
  unfold chat_turn. destruct (member "chat" B) as [chat|]; [|discriminate].
  destruct (member "role" chat) as [role|]; [|discriminate].
  destruct (Py.eq_str role "assistant"); [|discriminate].
  apply non_empty_truthy.
Qed.

Lemma spec_reply_truthy B : Py.truthy (spec_reply B) = true.
Proof.
  unfold spec_reply. simpl.
  destruct (chat_turn B) as [x|] eqn:H1; simpl;
    [exact (chat_turn_truthy _ _ H1)|].
  destruct (assistant_content B) as [y|] eqn:H2; simpl;
    [exact (non_empty_truthy _ _ H2)|].
  destruct (top_content B) as [z|] eqn:H3; simpl;
    [exact (non_empty_truthy _ _ H3)|].
  reflexivity.
Qed.

(** C3, as amended.  For a backend answer that is a JSON object whose [chat]
    and [assistant] members are objects where present, the reply is the
    first non-empty of: the content under [chat] when its role is
    "assistant", the content under [assistant], the top-level content; it is
    the sentinel when there is none, and it is never empty. *)
Theorem reply_is_first_non_empty B :
  well_shaped_body B ->
  extract_reply B = Ok (spec_reply B) /\ Py.truthy (spec_reply B) = true.
Proof.
  intros H. split; [apply extract_reply_spec, H | apply spec_reply_truthy].
Qed.

(** *** Messages of a named conversation *)

Lemma route_message_in_space req text C s :
  message_event req text -> in_space req C ->
  route req s = (Ok (Forward (JStr C) (JStr text)), s).
Proof.
  intros Hm Hin. pose proof Hm as (event & Hj & _).
  destruct (in_space_object _ _ _ Hin Hj) as [Hn Hsp].
  destruct (route_message req text s Hm) as (event' & Hj' & Hr).
  - exists event. tauto.
  - rewrite Hj in Hj'. injection Hj' as <-. rewrite Hn in Hr. exact Hr.
Qed.

Lemma session_id_of_object resp fields :
  body_json resp = Some (JObj fields) ->
  session_id_of resp
  = Ok (if Py.truthy (default JNull (Py.assoc "id" fields))
        then default JNull (Py.assoc "id" fields)
        else default JNull (Py.assoc "chat_id" fields)).
Proof.
  intros Hb. unfold session_id_of, resp_json. rewrite Hb. simpl.
  destruct (Py.truthy (default JNull (Py.assoc "id" fields))); reflexivity.
Qed.

(** What line 90 does with a createSession answer that is a JSON object with
    neither an [id] nor a [chat_id] member: the [.get] chain gives [None],
    line 91 stores it under the conversation, the message goes to
    [{base}/chats/None], and a later message of the conversation finds the
    stored [None] and does not call createSession again. *)
Theorem session_without_id_is_stored w req text C s resp fields :
  authenticate w req = None -> message_event req text -> in_space req C ->
  chat_sessions s !! KStr C = None ->
  answered w create_request resp ->
  body_json resp = Some (JObj fields) ->
  Py.assoc "id" fields = None -> Py.assoc "chat_id" fields = None ->
  let s1 := (webhook w req s).2 in
  webhook w req s
  = forward w JNull (JStr text)
      {| chat_sessions := <[KStr C := JNull]> (chat_sessions s);
         calls := calls s ++ [(CreateSession, create_request)] |}
  /\ url (send_request JNull (JStr text)) = OWUI_API_URL +:+ "/chats/None"
  /\ chat_sessions s1 !! KStr C = Some JNull
  /\ forall w2 req2 text2,
       authenticate w2 req2 = None -> message_event req2 text2 ->
       in_space req2 C ->
       count_site CreateSession (calls (webhook w2 req2 s1).2)
       = count_site CreateSession (calls s1).
Proof.
  intros Ha Hm Hin Hl Hans Hb Hid Hcid s1.
  pose proof (route_message_in_space req text C s Hm Hin) as Hr.
  assert (Hsid : session_id_of resp = Ok JNull).
  { rewrite (session_id_of_object _ _ Hb), Hid, Hcid. reflexivity. }
  assert (Hw : webhook w req s
               = forward w JNull (JStr text)
                   {| chat_sessions := <[KStr C := JNull]> (chat_sessions s);
                      calls := calls s ++ [(CreateSession, create_request)] |}).
  { rewrite (webhook_new _ _ _ _ (KStr C) _ Ha Hr eq_refl Hl). unfold bind.
    rewrite (create_session_ok _ _ _ _ _ Hans Hsid). reflexivity. }
  assert (Hs1 : chat_sessions s1 !! KStr C = Some JNull).
  { unfold s1. rewrite Hw, forward_state. simpl. apply lookup_insert_eq. }
  repeat split; try assumption; try reflexivity.
  intros w2 req2 text2 Ha2 Hm2 Hin2.
  pose proof (route_message_in_space req2 text2 C s1 Hm2 Hin2) as Hr2.
  destruct (message_flow w2 req2 _ _ (KStr C) s1 Ha2 Hr2 eq_refl) as [_ Hk].
  apply (Hk JNull Hs1).
Qed.

(** *** Events that carry no text *)

Lemma not_type_eq_str event name :
  ~ event_type_is event name ->
  Py.eq_str (default JNull (member "type" event)) name = false.
Proof.
  unfold event_type_is. intros Hn.
  destruct (member "type" event) as [[| | |ty| |]|]; simpl; try reflexivity.
  apply String.eqb_neq. intros ->. apply Hn. reflexivity.
Qed.

Lemma route_no_text req event s :
  get_json req = Some event -> is_object event ->
  Py.eq_str (default JNull (member "type" event)) "ADDED_TO_SPACE" = false ->
  Py.eq_str (default JNull (member "type" event)) "REMOVED_FROM_SPACE" = false ->
  absent_or_object "message" event ->
  Py.truthy (default (JStr "") (text_of event)) = false ->
  route req s = (Ok (Reply (jsonify (JObj []))), s).
Proof.
  intros Hj [fs ->] Ha Hr Hmsg Ht. unfold route. rewrite Hj.
  unfold text_of, absent_or_object in *. simpl in *.
  unfold bind at 1. simpl. unfold bind at 1. simpl. rewrite Ha, Hr.
  destruct Hmsg as [Hnone | [mfs Hsome]].
  - rewrite Hnone. reflexivity.
  - rewrite Hsome in *. simpl in *. unfold bind. simpl. rewrite Ht. reflexivity.
Qed.

(** C5, as amended.  An authenticated event that is a JSON object, whose
    type is none of ADDED_TO_SPACE, REMOVED_FROM_SPACE and MESSAGE, and that
    carries no non-empty [message.text], is answered with an empty JSON
    body: no backend call is made and the session dictionary is as it
    was. *)
Theorem event_without_text_is_ignored w req event s :
  authenticate w req = None ->
  get_json req = Some event -> is_object event ->
  ~ event_type_is event "ADDED_TO_SPACE" ->
  ~ event_type_is event "REMOVED_FROM_SPACE" ->
  ~ event_type_is event "MESSAGE" ->
  absent_or_object "message" event ->
  Py.truthy (default (JStr "") (text_of event)) = false ->
  webhook w req s = (Ok {| status := 200; body := JObj [] |}, s).
Proof.
  intros Ha Hj Hobj Hadd Hrem _ Hmsg Ht. unfold webhook. rewrite Ha.
  rewrite (bind_ok _ _ _ _ _
             (route_no_text req event s Hj Hobj (not_type_eq_str _ _ Hadd)
                (not_type_eq_str _ _ Hrem) Hmsg Ht)).
  reflexivity.
Qed.

(** C6, as amended.  For a MESSAGE of a conversation that has a session,
    when the sendMessage call fails inside the handler's [try] (the call
    raises, as on a network error or a timeout, or the status is a 4xx or a
    5xx), the answer is the fixed "service unavailable" text with status
    200, and the session dictionary is as it was. *)
Theorem send_failure_keeps_the_session w req text C chat_id s :
  authenticate w req = None -> message_event req text -> in_space req C ->
  chat_sessions s !! KStr C = Some chat_id ->
  failed w (send_request chat_id (JStr text)) ->
  exists s',
    webhook w req s
    = (Ok {| status := 200;
             body := JObj [("text",
                     JStr "⚠️ Error: The AI service is unavailable at the moment.")] |},
       s')
    /\ chat_sessions s' = chat_sessions s.
Proof.
  intros Ha Hm Hin Hl Hfail.
  pose proof (route_message_in_space req text C s Hm Hin) as Hr.
  rewrite (webhook_known _ _ _ _ (KStr C) _ _ Ha Hr eq_refl Hl).
  rewrite (forward_failed _ _ _ _ Hfail).
  eexists. split; reflexivity.
Qed.

(** *** No exception on well-shaped input *)

Lemma forward_total w chat_id user_message s :
  (forall resp,
      answered w (send_request chat_id user_message) resp ->
      exists B, body_json resp = Some B /\ well_shaped_body B) ->
  exists r s', forward w chat_id user_message s = (Ok r, s') /\ plain_reply r.
Proof.
  intros Hshape. unfold forward, bind, post.
  destruct (requests_post w (send_request chat_id user_message))
    as [e|resp] eqn:Hp.
  - do 2 eexists. split; [reflexivity|]. split; [reflexivity|].
    right. eexists. reflexivity.
  - destruct (raises_for_status resp) eqn:Hs.
    + do 2 eexists. split; [reflexivity|]. split; [reflexivity|].
      right. eexists. reflexivity.
    + destruct (Hshape resp (conj Hp Hs)) as (B & Hb & HB).
      unfold resp_json. rewrite Hb. simpl.
      rewrite (extract_reply_spec B HB). simpl.
      do 2 eexists. split; [reflexivity|]. split; [reflexivity|].
      right. eexists. reflexivity.
Qed.

Lemma create_session_total w k s :
  (forall resp,
      answered w create_request resp ->
      exists fields, body_json resp = Some (JObj fields)) ->
  (exists s', create_session w k s = (Ok (inl apology), s'))
  \/ (exists chat_id s', create_session w k s = (Ok (inr chat_id), s')).
Proof.
  intros Hshape.
  destruct (requests_post w create_request) as [e|resp] eqn:Hp.
  - left. eexists. apply create_session_failed. left. eauto.
  - destruct (raises_for_status resp) eqn:Hs.
    + left. eexists. apply create_session_failed. right. eauto.
    + right. destruct (Hshape resp (conj Hp Hs)) as (fields & Hb).
      do 2 eexists.
      apply (create_session_ok w k s resp _ (conj Hp Hs)
               (session_id_of_object resp fields Hb)).
Qed.

Lemma eq_str_true v name : Py.eq_str v name = true -> v = JStr name.
Proof.
  destruct v; simpl; try discriminate.
  intros H. apply String.eqb_eq in H. congruence.
Qed.

Lemma route_added req event s :
  get_json req = Some event -> is_object event ->
  Py.eq_str (default JNull (member "type" event)) "ADDED_TO_SPACE" = true ->
  absent_or_object "user" event ->
  exists t, route req s = (Ok (Reply (jsonify (JObj [("text", t)]))), s).
Proof.
  intros Hj [fs ->] Ha Hu. unfold route. rewrite Hj.
  unfold absent_or_object in Hu. simpl in *.
  unfold bind at 1. simpl. unfold bind at 1. simpl. rewrite Ha.
  destruct Hu as [Hnone | [ufs Hsome]].
  - rewrite Hnone. eexists. reflexivity.
  - rewrite Hsome. eexists. reflexivity.
Qed.

Lemma route_total req event s :
  get_json req = Some event -> well_shaped_event event ->
  exists s',
    (exists r, route req s = (Ok (Reply r), s') /\ plain_reply r)
    \/ (exists space_id user_message k,
           route req s = (Ok (Forward space_id user_message), s')
           /\ dict_key space_id = Ok k).
Proof.
  intros Hj (Hobj & Hu & Hm & Hsp & k & Hk).
  destruct (Py.eq_str (default JNull (member "type" event)) "ADDED_TO_SPACE")
    eqn:Hadd.
  { destruct (route_added req event s Hj Hobj Hadd Hu) as [t Hr].
    eexists. left. eexists. split; [exact Hr|].
    split; [reflexivity|]. right. eexists. reflexivity. }
  destruct (Py.eq_str (default JNull (member "type" event)) "REMOVED_FROM_SPACE")
    eqn:Hrem.
  { apply eq_str_true in Hrem.
    assert (Hty : member "type" event = Some (JStr "REMOVED_FROM_SPACE")).
    { destruct (member "type" event); simpl in Hrem; congruence. }
    eexists. left. eexists.
    split; [exact (route_removed req event k s Hj Hty Hsp Hk)|].
    split; [reflexivity|]. left. reflexivity. }
  destruct (Py.truthy (default (JStr "") (text_of event))) eqn:Ht.
  - destruct (text_of event) as [text|] eqn:Htext; [|discriminate].
    eexists. right. exists (default JNull (space_name_of event)), text, k.
    split; [|exact Hk].
    apply (route_forward req event text s Hj Hadd Hrem Htext Ht Hsp).
  - eexists. left. eexists.
    split; [exact (route_no_text req event s Hj Hobj Hadd Hrem Hm Ht)|].
    split; [reflexivity|]. left. reflexivity.
Qed.

(** C7, as amended.  An authenticated request whose body is a well-shaped
    event, handled while the backend's answers that pass [raise_for_status]
    are JSON objects (for sendMessage, with [chat] and [assistant] objects
    where present), gets a response: status 200 and a body that is [{}] or
    [{"text": ...}]; the handler raises nothing. *)
Theorem well_shaped_request_is_answered w req event s :
  authenticate w req = None ->
  get_json req = Some event -> well_shaped_event event ->
  (forall resp,
      answered w create_request resp ->
      exists fields, body_json resp = Some (JObj fields)) ->
  (forall chat_id user_message resp,
      answered w (send_request chat_id user_message) resp ->
      exists B, body_json resp = Some B /\ well_shaped_body B) ->
  exists r s',
    webhook w req s = (Ok r, s')
    /\ status r = 200
    /\ (body r = JObj [] \/ exists t, body r = JObj [("text", t)]).
Proof.
  intros Ha Hj Hev Hcreate Hsend. unfold webhook. rewrite Ha.
  destruct (route_total req event s Hj Hev)
    as (s1 & [(r & Hr & Hplain) | (space_id & um & k & Hr & Hk)]).
  { rewrite (bind_ok _ _ _ _ _ Hr). exists r, s1. split; [reflexivity|].
    exact Hplain. }
  rewrite (bind_ok _ _ _ _ _ Hr). unfold session_for.
  destruct (chat_sessions s1 !! k) as [chat_id|] eqn:Hl.
  - unfold bind at 1. unfold bind at 1.
    rewrite (find_session_known _ _ _ _ Hk Hl). simpl.
    destruct (forward_total w chat_id um s1 (Hsend chat_id um))
      as (r & s' & Hf & Hplain).
    exists r, s'. split; [exact Hf | exact Hplain].
  - unfold bind at 1. unfold bind at 1.
    rewrite (find_session_new _ _ _ Hk Hl).
    destruct (create_session_total w k s1 Hcreate)
      as [(s2 & Hc) | (chat_id & s2 & Hc)]; rewrite Hc.
    + exists apology, s2. split; [reflexivity|]. split; [reflexivity|].
      right. eexists. reflexivity.
    + destruct (forward_total w chat_id um s2 (Hsend chat_id um))
        as (r & s' & Hf & Hplain).
      exists r, s'. split; [exact Hf | exact Hplain].
Qed.

(** C8.  The two backend calls as the handler issues them: the createSession
    call carries no timeout, the sendMessage call a timeout of 15 seconds. *)
Theorem timeouts_of_backend_calls w k chat_id user_message s :
  (exists r,
      calls (create_session w k s).2 = calls s ++ [(CreateSession, r)]
      /\ url r = OWUI_API_URL +:+ "/chats/new"
      /\ timeout r = None)
  /\ (exists r,
        calls (forward w chat_id user_message s).2 = calls s ++ [(SendMessage, r)]
        /\ url r = OWUI_API_URL +:+ "/chats/" +:+ Py.str repr chat_id
        /\ timeout r = Some 15).
Proof.
  split.
  - exists create_request. rewrite create_session_calls. repeat split.
  - exists (send_request chat_id user_message). rewrite forward_state.
    repeat split.
Qed.

(** *** Requests in flight *)

(** A request stepped with no other in flight is the handler run whole. *)
Lemma alone_is_webhook w req s : alone w req s = finish (webhook w req) s.
Proof.
  unfold alone, finish, webhook. simpl.
  destruct (authenticate w req) as [denied|]; [reflexivity|].
  unfold bind at 1.
  destruct (route req s) as [[[resp|space_id um]|e] s1]; [reflexivity| |reflexivity].
  unfold session_for. unfold bind at 1. unfold bind at 1.
  destruct (find_session space_id s1) as [[[k|chat_id]|e] s2]; simpl;
    [| |reflexivity].
  - destruct (create_session w k s2) as [[[resp|chat_id]|e] s3]; simpl;
      try reflexivity.
  - unfold finish.
    destruct (forward w chat_id um s2) as [r s3]. reflexivity.
Qed.

Lemma turns_nil who : turns who [] = 0%nat.
Proof. reflexivity. Qed.

Lemma turns_same who sched : turns who (who :: sched) = S (turns who sched).
Proof.
  unfold turns. rewrite filter_cons.
  destruct (decide (who = who)); [reflexivity | congruence].
Qed.

Lemma turns_other who sched : turns who (other who :: sched) = turns who sched.
Proof.
  unfold turns. rewrite filter_cons.
  destruct (decide (other who = who)) as [E|]; [|reflexivity].
  destruct who; discriminate E.
Qed.

Lemma turns_mirror who sched :
  turns (other who) (map other sched) = turns who sched.
Proof.
  induction sched as [|t sched IH]; [reflexivity|].
  destruct who, t; simpl map;
    first [ rewrite (turns_same First), (turns_same Second)
          | rewrite (turns_same Second), (turns_same First)
          | rewrite (turns_other First), (turns_other Second)
          | rewrite (turns_other Second), (turns_other First) ];
    simpl in IH; rewrite IH; reflexivity.
Qed.

(** The two seats of a schedule can be exchanged. *)
Lemma run_mirror sched t1 t2 s :
  run (map other sched) t2 t1 s
  = let '(a, b, s') := run sched t1 t2 s in (b, a, s').
Proof.
  revert t1 t2 s. induction sched as [|t sched IH]; intros t1 t2 s;
    [reflexivity|].
  destruct t; simpl.
  - destruct (step t1 s) as [t1' s1]. apply IH.
  - destruct (step t2 s) as [t2' s1]. apply IH.
Qed.

(** The three steps of a message, one by one. *)
Lemma step_arrived_new w req text C s :
  authenticate w req = None -> message_event req text -> in_space req C ->
  chat_sessions s !! KStr C = None ->
  step (Arrived w req) s = (Creating w (KStr C) (JStr text), s).
Proof.
  intros Ha Hm Hin Hl. simpl. rewrite Ha.
  rewrite (route_message_in_space req text C s Hm Hin).
  rewrite (find_session_new (JStr C) (KStr C) s eq_refl Hl). reflexivity.
Qed.

Lemma step_arrived_known w req text C chat_id s :
  authenticate w req = None -> message_event req text -> in_space req C ->
  chat_sessions s !! KStr C = Some chat_id ->
  step (Arrived w req) s = (Sending w chat_id (JStr text), s).
Proof.
  intros Ha Hm Hin Hl. simpl. rewrite Ha.
  rewrite (route_message_in_space req text C s Hm Hin).
  rewrite (find_session_known (JStr C) (KStr C) chat_id s eq_refl Hl).
  reflexivity.
Qed.

Lemma step_sending w chat_id user_message s :
  exists r,
    step (Sending w chat_id user_message) s
    = (Finished r, logged SendMessage (send_request chat_id user_message) s).
Proof.
  simpl. unfold finish.
  pose proof (forward_state w chat_id user_message s) as Hf.
  destruct (forward w chat_id user_message s) as [r s']. simpl in Hf.
  subst s'. exists r. reflexivity.
Qed.

(** Once the session of [C] is stored, a first thread that has still to send
    and a second one at any place finish without a createSession call, and
    the second sends to the stored id. *)
Lemma run_once_stored w1 text1 w2 req2 text2 C chat_id :
  authenticate w2 req2 = None -> message_event req2 text2 -> in_space req2 C ->
  forall rest t1 t2 s,
    ((t1 = Sending w1 chat_id (JStr text1) /\ (1 <= turns First rest)%nat)
     \/ exists r, t1 = Finished r) ->
    ((t2 = Arrived w2 req2 /\ (2 <= turns Second rest)%nat)
     \/ (t2 = Sending w2 chat_id (JStr text2) /\ (1 <= turns Second rest)%nat)
     \/ exists r, t2 = Finished r) ->
    chat_sessions s !! KStr C = Some chat_id ->
    exists r1 r2 s' made,
      run rest t1 t2 s = (Finished r1, Finished r2, s')
      /\ chat_sessions s' = chat_sessions s
      /\ calls s' = calls s ++ made
      /\ count_site CreateSession made = 0%nat
      /\ ((exists r, t2 = Finished r)
          \/ In (SendMessage, send_request chat_id (JStr text2)) made).
Proof.
  intros Ha2 Hm2 Hin2.
  induction rest as [|t rest IH]; intros t1 t2 s H1 H2 Hl.
  - rewrite turns_nil in H1, H2.
    destruct H1 as [[_ H1] | [r1 ->]]; [lia|].
    destruct H2 as [[_ H2] | [[_ H2] | [r2 ->]]]; try lia.
    exists r1, r2, s, []. simpl. rewrite app_nil_r.
    repeat split. left. eauto.
  - destruct t.
    + (* the first thread moves *)
      change (First :: rest) with (other Second :: rest) in H2.
      rewrite turns_other in H2.
      destruct H1 as [[-> H1] | [r1 ->]].
      * destruct (step_sending w1 chat_id (JStr text1) s) as [r1 Hs].
        cbn [run]. rewrite Hs.
        destruct (IH (Finished r1) t2
                    (logged SendMessage (send_request chat_id (JStr text1)) s)
                    (or_intror (ex_intro _ r1 eq_refl)) H2 Hl)
          as (r1' & r2 & s' & made & Hrun & Hst & Hcalls & Hcount & Hsend).
        simpl in Hst, Hcalls.
        exists r1', r2, s', ((SendMessage, send_request chat_id (JStr text1))
                             :: made).
        split; [exact Hrun|]. split; [exact Hst|].
        split; [rewrite Hcalls, <- app_assoc; reflexivity|].
        split.
        -- change (?x :: made) with ([x] ++ made).
           rewrite count_site_app, count_site_one, Hcount. reflexivity.
        -- destruct Hsend as [Hf | Hin]; [left; exact Hf | right; right; exact Hin].
      * cbn [run]. simpl step.
        apply (IH (Finished r1) t2 s (or_intror (ex_intro _ r1 eq_refl)) H2 Hl).
    + (* the second thread moves *)
      assert (H1' : (t1 = Sending w1 chat_id (JStr text1)
                     /\ (1 <= turns First rest)%nat)
                    \/ exists r, t1 = Finished r).
      { destruct H1 as [[-> H1] | H1]; [left | right; exact H1].
        change (Second :: rest) with (other First :: rest) in H1.
        rewrite turns_other in H1. split; [reflexivity | exact H1]. }
      rewrite turns_same in H2.
      destruct H2 as [[-> H2] | [[-> H2] | [r2 ->]]].
      * cbn [run].
        rewrite (step_arrived_known w2 req2 text2 C chat_id s Ha2 Hm2 Hin2 Hl).
        assert (Hle : (1 <= turns Second rest)%nat) by lia.
        destruct (IH t1 (Sending w2 chat_id (JStr text2)) s H1'
                    (or_intror (or_introl (conj eq_refl Hle))) Hl)
          as (r1 & r2 & s' & made & Hrun & Hst & Hcalls & Hcount & Hsend).
        exists r1, r2, s', made. repeat split; try assumption.
        right. destruct Hsend as [[r Hf] | Hin]; [discriminate Hf | exact Hin].
      * destruct (step_sending w2 chat_id (JStr text2) s) as [r2 Hs].
        cbn [run]. rewrite Hs.
        destruct (IH t1 (Finished r2)
                    (logged SendMessage (send_request chat_id (JStr text2)) s)
                    H1' (or_intror (or_intror (ex_intro _ r2 eq_refl))) Hl)
          as (r1 & r2' & s' & made & Hrun & Hst & Hcalls & Hcount & _).
        simpl in Hst, Hcalls.
        exists r1, r2', s', ((SendMessage, send_request chat_id (JStr text2))
                             :: made).
        split; [exact Hrun|]. split; [exact Hst|].
        split; [rewrite Hcalls, <- app_assoc; reflexivity|].
        split.
        -- change (?x :: made) with ([x] ++ made).
           rewrite count_site_app, count_site_one, Hcount. reflexivity.
        -- right. left. reflexivity.
      * cbn [run]. simpl step.
        destruct (IH t1 (Finished r2) s H1'
                    (or_intror (or_intror (ex_intro _ r2 eq_refl))) Hl)
          as (r1 & r2' & s' & made & Hrun & Hst & Hcalls & Hcount & _).
        exists r1, r2', s', made. repeat split; try assumption.
        left. eauto.
Qed.

(** The second thread looks up after the first has stored. *)
Lemma run_ordered w1 req1 text1 w2 req2 text2 C s resp chat_id rest :
  authenticate w1 req1 = None -> message_event req1 text1 -> in_space req1 C ->
  authenticate w2 req2 = None -> message_event req2 text2 -> in_space req2 C ->
  chat_sessions s !! KStr C = None ->
  answered w1 create_request resp -> session_id_of resp = Ok chat_id ->
  (1 <= turns First rest)%nat -> (2 <= turns Second rest)%nat ->
  exists r1 r2 s',
    run (First :: First :: rest) (Arrived w1 req1) (Arrived w2 req2) s
    = (Finished r1, Finished r2, s')
    /\ chat_sessions s' = <[KStr C := chat_id]> (chat_sessions s)
    /\ count_site CreateSession (calls s') = S (count_site CreateSession (calls s))
    /\ In (SendMessage, send_request chat_id (JStr text2)) (calls s').
Proof.
  intros Ha1 Hm1 Hin1 Ha2 Hm2 Hin2 Hl Hans Hid Hf Hs.
  cbn [run].
  rewrite (step_arrived_new w1 req1 text1 C s Ha1 Hm1 Hin1 Hl).
  simpl step. rewrite (create_session_ok _ _ _ _ _ Hans Hid).
  destruct (run_once_stored w1 text1 w2 req2 text2 C chat_id Ha2 Hm2 Hin2 rest
              (Sending w1 chat_id (JStr text1)) (Arrived w2 req2)
              {| chat_sessions := <[KStr C := chat_id]> (chat_sessions s);
                 calls := calls s ++ [(CreateSession, create_request)] |}
              (or_introl (conj eq_refl Hf)) (or_introl (conj eq_refl Hs))
              (lookup_insert_eq _ _ _))
    as (r1 & r2 & s' & made & Hrun & Hst & Hcalls & Hcount & Hsend).
  exists r1, r2, s'. split; [exact Hrun|]. split; [exact Hst|]. split.
  - rewrite Hcalls. simpl. rewrite !count_site_app, count_site_one, Hcount.
    simpl. lia.
  - rewrite Hcalls. apply in_or_app. right.
    destruct Hsend as [[r Hf'] | Hin]; [discriminate Hf' | exact Hin].
Qed.

(** A step of a thread that is past the lookup makes the createSession call
    the thread had still to make, and no other. *)
Lemma step_past_lookup t s :
  past_lookup t ->
  past_lookup (step t s).1
  /\ pending (step t s).1 = 0%nat
  /\ count_site CreateSession (calls (step t s).2)
     = (count_site CreateSession (calls s) + pending t)%nat.
Proof.
  destruct t as [w req | w k um | w chat_id um | r]; intros Hp;
    [destruct Hp | | |].
  - pose proof (create_session_calls w k s) as Hc. simpl.
    destruct (create_session w k s) as [[[resp|chat_id]|e] s']; simpl in *;
      rewrite Hc, count_site_app, count_site_one; simpl; repeat split.
  - destruct (step_sending w chat_id um s) as [r ->]. simpl.
    rewrite count_site_app, count_site_one. simpl. repeat split; lia.
  - simpl. repeat split; lia.
Qed.

(** Threads that are both past the lookup make, between them, exactly the
    createSession calls they had still to make. *)
Lemma run_past_lookup rest :
  forall t1 t2 s,
    past_lookup t1 -> past_lookup t2 ->
    (pending t1 <= turns First rest)%nat ->
    (pending t2 <= turns Second rest)%nat ->
    count_site CreateSession (calls (run rest t1 t2 s).2)
    = (count_site CreateSession (calls s) + pending t1 + pending t2)%nat.
Proof.
  induction rest as [|t rest IH]; intros t1 t2 s Hp1 Hp2 H1 H2.
  - rewrite turns_nil in H1, H2. simpl. lia.
  - destruct t; cbn [run].
    + change (First :: rest) with (other Second :: rest) in H2.
      rewrite turns_other in H2.
      destruct (step_past_lookup t1 s Hp1) as (Hp & Hpend & Hcount).
      destruct (step t1 s) as [t1' s1]. simpl in *.
      assert (Hle : (pending t1' <= turns First rest)%nat) by lia.
      rewrite (IH t1' t2 s1 Hp Hp2 Hle H2). lia.
    + change (Second :: rest) with (other First :: rest) in H1.
      rewrite turns_other in H1.
      destruct (step_past_lookup t2 s Hp2) as (Hp & Hpend & Hcount).
      destruct (step t2 s) as [t2' s1]. simpl in *.
      assert (Hle : (pending t2' <= turns Second rest)%nat) by lia.
      rewrite (IH t1 t2' s1 Hp1 Hp H1 Hle). lia.
Qed.

(** C9 (amended).  Two first messages of a conversation [C], in any order of
    their steps.  When one of them has stored its session (line 91) before
    the other looks its own up (line 79), and its createSession call
    succeeded, there is one createSession call and one session record, and
    the other message is sent to that session.  When both look up before
    either stores, each makes a createSession call of its own. *)
Theorem first_messages_share_a_session_when_ordered
    w1 req1 text1 w2 req2 text2 C s :
  authenticate w1 req1 = None -> message_event req1 text1 -> in_space req1 C ->
  authenticate w2 req2 = None -> message_event req2 text2 -> in_space req2 C ->
  chat_sessions s !! KStr C = None ->
  (forall lead rest resp chat_id,
      answered w1 create_request resp -> session_id_of resp = Ok chat_id ->
      (1 <= turns lead rest)%nat -> (2 <= turns (other lead) rest)%nat ->
      exists r1 r2 s',
        run_from lead (lead :: lead :: rest) (Arrived w1 req1) (Arrived w2 req2) s
        = (Finished r1, Finished r2, s')
        /\ chat_sessions s' = <[KStr C := chat_id]> (chat_sessions s)
        /\ count_site CreateSession (calls s')
           = S (count_site CreateSession (calls s))
        /\ In (SendMessage, send_request chat_id (JStr text2)) (calls s'))
  /\ (forall lead rest,
        (1 <= turns First rest)%nat -> (1 <= turns Second rest)%nat ->
        count_site CreateSession
          (calls (run (lead :: other lead :: rest)
                    (Arrived w1 req1) (Arrived w2 req2) s).2)
        = S (S (count_site CreateSession (calls s)))).
Proof.
  intros Ha1 Hm1 Hin1 Ha2 Hm2 Hin2 Hl. split.
  - intros lead rest resp chat_id Hans Hid Hlead Hother. destruct lead.
    + exact (run_ordered w1 req1 text1 w2 req2 text2 C s resp chat_id rest
               Ha1 Hm1 Hin1 Ha2 Hm2 Hin2 Hl Hans Hid Hlead Hother).
    + destruct (run_ordered w1 req1 text1 w2 req2 text2 C s resp chat_id
                  (map other rest) Ha1 Hm1 Hin1 Ha2 Hm2 Hin2 Hl Hans Hid)
        as (r1 & r2 & s' & Hrun & Hrest).
      * rewrite <- (turns_mirror Second rest) in Hlead. exact Hlead.
      * cbn [other] in Hother.
        rewrite <- (turns_mirror First rest) in Hother. exact Hother.
      * exists r1, r2, s'. split; [|exact Hrest].
        unfold run_from.
        pose proof (run_mirror (First :: First :: map other rest)
                      (Arrived w1 req1) (Arrived w2 req2) s) as Hm.
        rewrite Hrun in Hm. simpl map in Hm.
        rewrite map_map in Hm.
        rewrite (map_ext _ id) in Hm by (intros []; reflexivity).
        rewrite map_id in Hm. rewrite Hm. reflexivity.
  - intros lead rest Hf Hs. destruct lead; cbn [other run].
    + rewrite (step_arrived_new w1 req1 text1 C s Ha1 Hm1 Hin1 Hl).
      rewrite (step_arrived_new w2 req2 text2 C s Ha2 Hm2 Hin2 Hl).
      rewrite (run_past_lookup rest (Creating w1 (KStr C) (JStr text1))
                 (Creating w2 (KStr C) (JStr text2)) s I I Hf Hs).
      simpl. lia.
    + rewrite (step_arrived_new w2 req2 text2 C s Ha2 Hm2 Hin2 Hl).
      rewrite (step_arrived_new w1 req1 text1 C s Ha1 Hm1 Hin1 Hl).
      rewrite (run_past_lookup rest (Creating w1 (KStr C) (JStr text1))
                 (Creating w2 (KStr C) (JStr text2)) s I I Hf Hs).
      simpl. lia.
Qed.

(** ** Further properties of the handler and of the start-up code *)

(** *** Start-up *)

Lemma get_required_env_loaded environ key value :
  Startup.get_required_env environ key = Startup.Loaded value
  <-> environ !! key = Some value /\ value <> "".
Proof.
  unfold Startup.get_required_env. split.
  - destruct (environ !! key) as [v|]; [|discriminate].
    destruct (String.eqb v "") eqn:E; [discriminate|].
    intros [= ->]. split; [reflexivity|]. apply String.eqb_neq. exact E.
  - intros [-> Hne]. apply String.eqb_neq in Hne. rewrite Hne. reflexivity.
Qed.

(** X1.  The module starts exactly when GCP_PROJECT_NUMBER and OWUI_API_KEY
    are both set to non-empty values; the backend URL is then the value of
    OWUI_API_URL when the variable is set, empty or not, and the built-in
    default only when it is not set. *)
Theorem startup_loads_iff environ c :
  Startup.load environ = Startup.Loaded c
  <-> exists project key,
        environ !! "GCP_PROJECT_NUMBER" = Some project /\ project <> ""
        /\ environ !! "OWUI_API_KEY" = Some key /\ key <> ""
        /\ c = {| Startup.project_number := project;
                  Startup.api_url :=
                    default "https://cojovi.ngrok.dev:3000/api/v1"
                      (environ !! "OWUI_API_URL");
                  Startup.api_key := key |}.
Proof.
  unfold Startup.load. split.
  - destruct (Startup.get_required_env environ "GCP_PROJECT_NUMBER")
      as [project|m] eqn:Hp; [|discriminate].
    destruct (Startup.get_required_env environ "OWUI_API_KEY")
      as [key|m] eqn:Hk; [|discriminate].
    apply get_required_env_loaded in Hp as [Hp Hpne].
    apply get_required_env_loaded in Hk as [Hk Hkne].
    intros [= <-]. exists project, key. repeat split; assumption.
  - intros (project & key & Hp & Hpne & Hk & Hkne & ->).
    rewrite (proj2 (get_required_env_loaded _ _ _) (conj Hp Hpne)).
    rewrite (proj2 (get_required_env_loaded _ _ _) (conj Hk Hkne)).
    reflexivity.
Qed.

(** X2.  When a required variable is missing or empty the start-up raises
    [ValueError] naming it: GCP_PROJECT_NUMBER first, whatever else is set,
    and OWUI_API_KEY when the project number is there. *)
Theorem startup_names_the_missing_variable environ :
  (environ !! "GCP_PROJECT_NUMBER" = None
   \/ environ !! "GCP_PROJECT_NUMBER" = Some "" ->
   Startup.load environ
   = Startup.ValueError
       "Missing required environment variable: GCP_PROJECT_NUMBER")
  /\ (forall project,
        environ !! "GCP_PROJECT_NUMBER" = Some project -> project <> "" ->
        environ !! "OWUI_API_KEY" = None \/ environ !! "OWUI_API_KEY" = Some "" ->
        Startup.load environ
        = Startup.ValueError
            "Missing required environment variable: OWUI_API_KEY").
Proof.
  split.
  - intros [H | H]; unfold Startup.load, Startup.get_required_env;
      rewrite H; reflexivity.
  - intros project Hp Hne Hk. unfold Startup.load.
    rewrite (proj2 (get_required_env_loaded _ _ _) (conj Hp Hne)).
    destruct Hk as [H | H]; unfold Startup.get_required_env; rewrite H;
      reflexivity.
Qed.

(** *** Every way through the routing *)

(** What [route] can come to: an exception, with the state as it was; the
    greeting; an empty answer, the session of the event's space dropped; an
    empty answer and nothing done; a message to forward. *)
Lemma route_cases req s :
  (exists e, route req s = (Raise e, s))
  \/ (exists event,
        get_json req = Some event
        /\ event_type_is event "ADDED_TO_SPACE"
        /\ route req s
           = (Ok (Reply (jsonify
                    (JObj [("text",
                       JStr (welcome_text
                               (default (JStr "there")
                                  (member "user" event ≫= member "displayName"))))]))),
              s))
  \/ (exists event k,
        get_json req = Some event
        /\ event_type_is event "REMOVED_FROM_SPACE"
        /\ dict_key (default JNull (space_name_of event)) = Ok k
        /\ route req s
           = (Ok (Reply (jsonify (JObj []))),
              {| chat_sessions := delete k (chat_sessions s); calls := calls s |}))
  \/ route req s = (Ok (Reply (jsonify (JObj []))), s)
  \/ (exists event user_message,
        get_json req = Some event
        /\ text_of event = Some user_message
        /\ Py.truthy user_message = true
        /\ route req s
           = (Ok (Forward (default JNull (space_name_of event)) user_message), s)).
Proof.
  remember (route req s) as R eqn:HR. unfold route in HR.
  destruct (get_json req) as [event|] eqn:Hj;
    [|left; eexists; subst R; reflexivity].
  destruct event as [| | | | |fs]; try (left; eexists; subst R; reflexivity).
  unfold bind at 1 in HR. simpl in HR. unfold bind at 1 in HR. simpl in HR.
  destruct (Py.eq_str (default JNull (Py.assoc "type" fs)) "ADDED_TO_SPACE")
    eqn:Hadd.
  { apply eq_str_true in Hadd.
    assert (Hty : Py.assoc "type" fs = Some (JStr "ADDED_TO_SPACE"))
      by (destruct (Py.assoc "type" fs); simpl in Hadd; congruence).
    destruct (Py.assoc "user" fs) as [user|] eqn:Hu; simpl in HR.
    - destruct user as [| | | | |ufs]; try (left; eexists; subst R; reflexivity).
      right; left. eexists. split; [reflexivity|]. split; [exact Hty|].
      simpl. rewrite Hu. subst R. reflexivity.
    - right; left. eexists. split; [reflexivity|]. split; [exact Hty|].
      simpl. rewrite Hu. subst R. reflexivity. }
  destruct (Py.eq_str (default JNull (Py.assoc "type" fs)) "REMOVED_FROM_SPACE")
    eqn:Hrem.
  { pose proof Hrem as Hrem'. apply eq_str_true in Hrem'.
    assert (Hty : member "type" (JObj fs) = Some (JStr "REMOVED_FROM_SPACE"))
      by (simpl; destruct (Py.assoc "type" fs); simpl in Hrem'; congruence).
    destruct (Py.assoc "space" fs) as [space|] eqn:Hs; simpl in HR.
    - destruct space as [| | | | |sfs];
        try (left; eexists; subst R; reflexivity).
      destruct (dict_key (default JNull (Py.assoc "name" sfs))) as [k|e] eqn:Hk.
      + right; right; left. exists (JObj fs), k.
        assert (Hk' : dict_key (default JNull (space_name_of (JObj fs))) = Ok k).
        { unfold space_name_of. simpl. rewrite Hs. exact Hk. }
        split; [reflexivity|]. split; [exact Hty|]. split; [exact Hk'|].
        subst R. apply eq_sym.
        rewrite <- (route_removed req (JObj fs) k s Hj Hty
                      (or_intror (ex_intro _ sfs Hs)) Hk').
        unfold route. rewrite Hj. unfold bind at 1. simpl.
        unfold bind at 1. simpl. rewrite Hadd, Hrem, Hs. reflexivity.
      + left. exists e. subst R. unfold bind. simpl. rewrite Hk. reflexivity.
    - right; right; left. exists (JObj fs), KNone.
      assert (Hk' : dict_key (default JNull (space_name_of (JObj fs))) = Ok KNone).
      { unfold space_name_of. simpl. rewrite Hs. reflexivity. }
      split; [reflexivity|]. split; [exact Hty|]. split; [exact Hk'|].
      subst R. apply eq_sym.
      rewrite <- (route_removed req (JObj fs) KNone s Hj Hty
                    (or_introl Hs) Hk').
      unfold route. rewrite Hj. unfold bind at 1. simpl.
      unfold bind at 1. simpl. rewrite Hadd, Hrem, Hs. reflexivity. }
  destruct (Py.assoc "message" fs) as [message|] eqn:Hm; simpl in HR.
  2:{ right; right; right; left. subst R. reflexivity. }
  destruct message as [| | | | |mfs]; try (left; eexists; subst R; reflexivity).
  unfold bind at 1 in HR. simpl in HR. unfold bind at 1 in HR. simpl in HR.
  destruct (Py.truthy (default (JStr "") (Py.assoc "text" mfs))) eqn:Ht;
    simpl in HR.
  2:{ right; right; right; left. subst R. reflexivity. }
  destruct (Py.assoc "text" mfs) as [text|] eqn:Htext; [|discriminate].
  simpl in Ht.
  destruct (Py.assoc "space" fs) as [space|] eqn:Hs; simpl in HR.
  - destruct space as [| | | | |sfs]; try (left; eexists; subst R; reflexivity).
    right; right; right; right. exists (JObj fs), text.
    split; [reflexivity|].
    unfold text_of, space_name_of. simpl. rewrite Hm, Hs. simpl.
    rewrite Htext. repeat split; [exact Ht|]. subst R. reflexivity.
  - right; right; right; right. exists (JObj fs), text.
    split; [reflexivity|].
    unfold text_of, space_name_of. simpl. rewrite Hm, Hs. simpl.
    rewrite Htext. repeat split; [exact Ht|]. subst R. reflexivity.
Qed.

(** *** Every way through the handler *)

Lemma authenticate_some w req r :
  authenticate w req = Some r -> r = unauthorized.
Proof.
  unfold authenticate.
  destruct (bearer_token req) as [token|]; [|congruence].
  destruct (String.eqb token ""); [congruence|].
  destruct (verify w token); congruence.
Qed.

Lemma create_session_cases w k s :
  create_session w k s = (Ok (inl apology), logged CreateSession create_request s)
  \/ (exists e,
        create_session w k s = (Raise e, logged CreateSession create_request s))
  \/ (exists resp chat_id,
        answered w create_request resp
        /\ session_id_of resp = Ok chat_id
        /\ create_session w k s
           = (Ok (inr chat_id),
              {| chat_sessions := <[k := chat_id]> (chat_sessions s);
                 calls := calls s ++ [(CreateSession, create_request)] |})).
Proof.
  destruct (requests_post w create_request) as [e|resp] eqn:Hp.
  { left. apply create_session_failed. left. eauto. }
  destruct (raises_for_status resp) eqn:Hs.
  { left. apply create_session_failed. right. eauto. }
  destruct (session_id_of resp) as [chat_id|e] eqn:Hid.
  - right; right. exists resp, chat_id. split; [split; assumption|].
    split; [assumption|].
    apply (create_session_ok w k s resp chat_id (conj Hp Hs) Hid).
  - right; left. exists e. unfold create_session, bind, post.
    rewrite Hp, Hs, Hid. reflexivity.
Qed.

(** The handler's outcome, by the way taken through it. *)
Lemma webhook_cases w req s :
  (authenticate w req = Some unauthorized
   /\ webhook w req s = (Ok unauthorized, s))
  \/ (authenticate w req = None
      /\ ((exists e, webhook w req s = (Raise e, s))
          \/ (exists event,
                get_json req = Some event
                /\ event_type_is event "ADDED_TO_SPACE"
                /\ webhook w req s
                   = (Ok (jsonify
                            (JObj [("text",
                               JStr (welcome_text
                                       (default (JStr "there")
                                          (member "user" event
                                             ≫= member "displayName"))))])),
                      s))
          \/ (exists event k,
                get_json req = Some event
                /\ event_type_is event "REMOVED_FROM_SPACE"
                /\ dict_key (default JNull (space_name_of event)) = Ok k
                /\ webhook w req s
                   = (Ok (jsonify (JObj [])),
                      {| chat_sessions := delete k (chat_sessions s);
                         calls := calls s |}))
          \/ webhook w req s = (Ok (jsonify (JObj [])), s)
          \/ (exists event user_message k,
                get_json req = Some event
                /\ text_of event = Some user_message
                /\ Py.truthy user_message = true
                /\ dict_key (default JNull (space_name_of event)) = Ok k
                /\ ((exists chat_id,
                       chat_sessions s !! k = Some chat_id
                       /\ webhook w req s = forward w chat_id user_message s)
                    \/ (chat_sessions s !! k = None
                        /\ (webhook w req s
                            = (Ok apology, logged CreateSession create_request s)
                            \/ (exists e,
                                  webhook w req s
                                  = (Raise e,
                                     logged CreateSession create_request s))
                            \/ (exists resp chat_id,
                                  answered w create_request resp
                                  /\ session_id_of resp = Ok chat_id
                                  /\ webhook w req s
                                     = forward w chat_id user_message
                                         {| chat_sessions :=
                                              <[k := chat_id]> (chat_sessions s);
                                            calls :=
                                              calls s
                                              ++ [(CreateSession,
                                                   create_request)] |}))))))).
Proof.
  destruct (authenticate w req) as [r|] eqn:Ha.
  { left. pose proof (authenticate_some _ _ _ Ha) as ->.
    split; [reflexivity|]. unfold webhook. rewrite Ha. reflexivity. }
  right. split; [reflexivity|].
  destruct (route_cases req s)
    as [[e Hr] | [(event & Hj & Hty & Hr) | [(event & k & Hj & Hty & Hk & Hr)
       | [Hr | (event & um & Hj & Ht & Htr & Hr)]]]].
  - left. exists e. unfold webhook. rewrite Ha.
    unfold bind. rewrite Hr. reflexivity.
  - right; left. exists event. repeat split; try assumption.
    unfold webhook. rewrite Ha, (bind_ok _ _ _ _ _ Hr). reflexivity.
  - right; right; left. exists event, k. repeat split; try assumption.
    unfold webhook. rewrite Ha, (bind_ok _ _ _ _ _ Hr). reflexivity.
  - right; right; right; left.
    unfold webhook. rewrite Ha, (bind_ok _ _ _ _ _ Hr). reflexivity.
  - destruct (dict_key (default JNull (space_name_of event))) as [k|e] eqn:Hk.
    2:{ left. exists e. unfold webhook. rewrite Ha, (bind_ok _ _ _ _ _ Hr).
        unfold session_for, find_session, bind. rewrite Hk. reflexivity. }
    right; right; right; right. exists event, um, k.
    split; [assumption|]. split; [assumption|]. split; [assumption|].
    split; [exact Hk|].
    destruct (chat_sessions s !! k) as [chat_id|] eqn:Hl.
    + left. exists chat_id. split; [reflexivity|].
      apply (webhook_known _ _ _ _ _ _ _ Ha Hr Hk Hl).
    + right. split; [reflexivity|].
      rewrite (webhook_new _ _ _ _ _ _ Ha Hr Hk Hl). unfold bind.
      destruct (create_session_cases w k s)
        as [Hc | [[e Hc] | (resp & chat_id & Hans & Hid & Hc)]]; rewrite Hc.
      * left. reflexivity.
      * right; left. exists e. reflexivity.
      * right; right. exists resp, chat_id.
        split; [exact Hans|]. split; [exact Hid|]. reflexivity.
Qed.

Lemma extract_reply_truthy B t : extract_reply B = Ok t -> Py.truthy t = true.
Proof.
  unfold extract_reply.
  destruct (reply_under_chat B) as [found|e]; simpl; [|discriminate].
  destruct (Py.truthy found) eqn:H1; simpl.
  - rewrite H1. simpl. congruence.
  - destruct (reply_elsewhere B) as [found'|e]; simpl; [|discriminate].
    destruct (Py.truthy found') eqn:H2; simpl; intros [= <-];
      [exact H2 | reflexivity].
Qed.

(** What [forward] can answer with. *)
Lemma forward_result w chat_id user_message s r s' :
  forward w chat_id user_message s = (Ok r, s') ->
  r = unavailable
  \/ exists t, r = jsonify (JObj [("text", t)]) /\ Py.truthy t = true.
Proof.
  unfold forward, bind, post.
  destruct (requests_post w _) as [e|resp]; [intros [= <- _]; left; reflexivity|].
  destruct (raises_for_status resp); [intros [= <- _]; left; reflexivity|].
  simpl. destruct (resp_json resp) as [B|e]; simpl; [|discriminate].
  destruct (extract_reply B) as [t|e] eqn:Ht; simpl; [|discriminate].
  intros [= <- _]. right. exists t. split; [reflexivity|].
  exact (extract_reply_truthy _ _ Ht).
Qed.

(** X3.  A request leaves alone the session of every conversation but the
    one its own [space.name] names: the record under any other key is after
    the request what it was before, whatever the request and however it
    ends. *)
Theorem other_conversations_are_untouched w req s k' :
  (forall event k,
      get_json req = Some event ->
      dict_key (default JNull (space_name_of event)) = Ok k -> k <> k') ->
  chat_sessions (webhook w req s).2 !! k' = chat_sessions s !! k'.
Proof.
  intros Hother.
  destruct (webhook_cases w req s)
    as [[_ Hw] | [_ [[e Hw] | [(event & _ & _ & Hw)
       | [(event & k & Hj & _ & Hk & Hw) | [Hw
       | (event & um & k & Hj & _ & _ & Hk & Hflow)]]]]]];
    try (rewrite Hw; reflexivity).
  - rewrite Hw. simpl. apply lookup_delete_ne. exact (Hother _ _ Hj Hk).
  - pose proof (Hother _ _ Hj Hk) as Hne.
    destruct Hflow as [(chat_id & _ & Hw) | [_ [Hw | [[e Hw]
      | (resp & chat_id & _ & _ & Hw)]]]];
      rewrite Hw; try reflexivity.
    + rewrite forward_state. reflexivity.
    + rewrite forward_state. simpl. apply lookup_insert_ne. exact Hne.
Qed.

(** X4.  One request makes at most two backend calls, a createSession call
    and then a sendMessage call, never the other way round and never two of
    a kind; the calls made before it stay in the log, and each new call
    carries the bearer credential and the JSON content type. *)
Theorem backend_calls_of_one_request w req s :
  exists made,
    calls (webhook w req s).2 = calls s ++ made
    /\ (made = []
        \/ made = [(CreateSession, create_request)]
        \/ (exists chat_id user_message,
              made = [(SendMessage, send_request chat_id user_message)])
        \/ (exists chat_id user_message,
              made = [(CreateSession, create_request);
                      (SendMessage, send_request chat_id user_message)]))
    /\ Forall (fun c => headers c.2
                        = [("Authorization", "Bearer " +:+ OWUI_API_KEY);
                           ("Content-Type", "application/json")]) made.
Proof.
  destruct (webhook_cases w req s)
    as [[_ Hw] | [_ [[e Hw] | [(event & _ & _ & Hw)
       | [(event & k & _ & _ & _ & Hw) | [Hw
       | (event & um & k & _ & _ & _ & _ & Hflow)]]]]]];
    try (rewrite Hw; exists []; split;
         [simpl; rewrite app_nil_r; reflexivity|]; split;
         [left; reflexivity | constructor]).
  destruct Hflow as [(chat_id & _ & Hw) | [_ [Hw | [[e Hw]
    | (resp & chat_id & _ & _ & Hw)]]]]; rewrite Hw.
  - rewrite forward_state. eexists. split; [reflexivity|].
    split; [right; right; left; eauto|]. repeat constructor.
  - eexists. split; [reflexivity|].
    split; [right; left; reflexivity|]. repeat constructor.
  - eexists. split; [reflexivity|].
    split; [right; left; reflexivity|]. repeat constructor.
  - rewrite forward_state. simpl. rewrite <- app_assoc. eexists.
    split; [reflexivity|]. split; [right; right; right; eauto|].
    repeat constructor.
Qed.

(** X5.  When the handler answers, the status is 401 exactly when the
    request was turned away at authentication, and then nothing was done;
    every other answer has status 200. *)
Theorem answer_is_401_only_when_denied w req s r s' :
  webhook w req s = (Ok r, s') ->
  (authenticate w req = Some r /\ status r = 401 /\ s' = s)
  \/ (authenticate w req = None /\ status r = 200).
Proof.
  intros H.
  destruct (webhook_cases w req s)
    as [[Ha Hw] | [Ha [[e Hw] | [(event & _ & _ & Hw)
       | [(event & k & _ & _ & _ & Hw) | [Hw
       | (event & um & k & _ & _ & _ & _ & Hflow)]]]]]].
  - rewrite Hw in H. injection H as <- <-. left. repeat split. exact Ha.
  - rewrite Hw in H. discriminate.
  - rewrite Hw in H. injection H as <- <-. right. split; [exact Ha|reflexivity].
  - rewrite Hw in H. injection H as <- <-. right. split; [exact Ha|reflexivity].
  - rewrite Hw in H. injection H as <- <-. right. split; [exact Ha|reflexivity].
  - right. split; [exact Ha|].
    destruct Hflow as [(chat_id & _ & Hw) | [_ [Hw | [[e Hw]
      | (resp & chat_id & _ & _ & Hw)]]]]; rewrite Hw in H.
    + destruct (forward_result _ _ _ _ _ _ H) as [-> | (t & -> & _)];
        reflexivity.
    + injection H as <- <-. reflexivity.
    + discriminate.
    + destruct (forward_result _ _ _ _ _ _ H) as [-> | (t & -> & _)];
        reflexivity.
Qed.

(** X6.  The handler never answers with an empty text: whenever the body of
    its answer is [{"text": t}], [t] is non-empty. *)
Theorem text_replies_are_not_empty w req s r s' t :
  webhook w req s = (Ok r, s') ->
  body r = JObj [("text", t)] ->
  Py.truthy t = true.
Proof.
  intros H Hb.
  destruct (webhook_cases w req s)
    as [[Ha Hw] | [Ha [[e Hw] | [(event & _ & _ & Hw)
       | [(event & k & _ & _ & _ & Hw) | [Hw
       | (event & um & k & _ & _ & _ & _ & Hflow)]]]]]];
    try (rewrite Hw in H; injection H as <- <-; simpl in Hb;
         first [discriminate | injection Hb as <-; reflexivity]).
  - rewrite Hw in H. discriminate.
  - destruct Hflow as [(chat_id & _ & Hw) | [_ [Hw | [[e Hw]
      | (resp & chat_id & _ & _ & Hw)]]]]; rewrite Hw in H.
    + destruct (forward_result _ _ _ _ _ _ H) as [-> | (t' & -> & Ht)];
        simpl in Hb; injection Hb as <-; [reflexivity | exact Ht].
    + injection H as <- <-. simpl in Hb. injection Hb as <-. reflexivity.
    + discriminate.
    + destruct (forward_result _ _ _ _ _ _ H) as [-> | (t' & -> & Ht)];
        simpl in Hb; injection Hb as <-; [reflexivity | exact Ht].
Qed.

(** *** The three kinds of event, one by one *)


(** X8.  An authenticated REMOVED_FROM_SPACE event for [C] is answered with
    an empty body and no backend call; afterwards [C] has no session, every
    other conversation has the session it had, and the same event handled
    again changes nothing. *)
Theorem removal_forgets_only_its_space w req C s :
  authenticate w req = None -> removed_event req -> in_space req C ->
  exists s',
    webhook w req s = (Ok {| status := 200; body := JObj [] |}, s')
    /\ calls s' = calls s
    /\ chat_sessions s' !! KStr C = None
    /\ (forall k, k <> KStr C -> chat_sessions s' !! k = chat_sessions s !! k)
    /\ webhook w req s' = (Ok {| status := 200; body := JObj [] |}, s').
Proof.
  intros Ha (event & Hj & Hty) Hin.
  destruct (in_space_object _ _ _ Hin Hj) as [Hn Hsp].
  assert (Hk : dict_key (default JNull (space_name_of event)) = Ok (KStr C))
    by (rewrite Hn; reflexivity).
  assert (Hw : forall s0,
             webhook w req s0
             = (Ok (jsonify (JObj [])),
                {| chat_sessions := delete (KStr C) (chat_sessions s0);
                   calls := calls s0 |})).
  { intros s0. unfold webhook. rewrite Ha.
    rewrite (bind_ok _ _ _ _ _ (route_removed req event _ s0 Hj Hty Hsp Hk)).
    reflexivity. }
  eexists. split; [apply Hw|]. simpl.
  split; [reflexivity|]. split; [apply lookup_delete_eq|].
  split; [intros k Hne; apply lookup_delete_ne; congruence|].
  rewrite Hw. simpl. rewrite delete_delete_eq. reflexivity.
Qed.


(** X10.  When the createSession call of a first message fails (the call
    raises, or the status is a 4xx or a 5xx), the answer is the fixed
    apology with status 200, no sendMessage call is made and no session is
    stored, so that the next message of the conversation calls
    createSession again. *)
Theorem failed_session_creation_is_retried w req text C s :
  authenticate w req = None -> message_event req text -> in_space req C ->
  chat_sessions s !! KStr C = None ->
  failed w create_request ->
  webhook w req s
  = (Ok {| status := 200;
           body := JObj [("text",
                     JStr "Sorry, I couldn't start a session with the AI.")] |},
     {| chat_sessions := chat_sessions s;
        calls := calls s ++ [(CreateSession, create_request)] |})
  /\ forall w2 req2 text2,
       authenticate w2 req2 = None -> message_event req2 text2 ->
       in_space req2 C ->
       count_site CreateSession (calls (webhook w2 req2 (webhook w req s).2).2)
       = S (count_site CreateSession (calls (webhook w req s).2)).
Proof.
  intros Ha Hm Hin Hl Hfail.
  pose proof (route_message_in_space req text C s Hm Hin) as Hr.
  assert (Hw : webhook w req s
               = (Ok apology, logged CreateSession create_request s)).
  { rewrite (webhook_new _ _ _ _ (KStr C) _ Ha Hr eq_refl Hl). unfold bind.
    rewrite (create_session_failed _ _ _ Hfail). reflexivity. }
  split; [exact Hw|].
  intros w2 req2 text2 Ha2 Hm2 Hin2. rewrite Hw. simpl.
  pose proof (route_message_in_space req2 text2 C
                (logged CreateSession create_request s) Hm2 Hin2) as Hr2.
  destruct (message_flow w2 req2 _ _ (KStr C) _ Ha2 Hr2 eq_refl) as [Hnew _].
  apply Hnew. exact Hl.
Qed.

(** X11.  A message of a conversation that has a session, answered by the
    backend with a body the reply can be read from, is posted once to
    [{base}/chats/{session id}] with the payload
    [{"chat": {"content": text, "role": "user"}}] and a timeout of 15, and
    answered with status 200 and the reply read from the body; the session
    dictionary is as it was. *)
Theorem message_is_answered_from_the_backend w req text C chat_id s resp B reply :
  authenticate w req = None -> message_event req text -> in_space req C ->
  chat_sessions s !! KStr C = Some chat_id ->
  answered w (send_request chat_id (JStr text)) resp ->
  body_json resp = Some B -> extract_reply B = Ok reply ->
  webhook w req s
  = (Ok {| status := 200; body := JObj [("text", reply)] |},
     {| chat_sessions := chat_sessions s;
        calls :=
          calls s
          ++ [(SendMessage,
               {| url := OWUI_API_URL +:+ "/chats/" +:+ Py.str repr chat_id;
                  headers := [("Authorization", "Bearer " +:+ OWUI_API_KEY);
                              ("Content-Type", "application/json")];
                  json_arg :=
                    JObj [("chat", JObj [("content", JStr text);
                                         ("role", JStr "user")])];
                  timeout := Some 15 |})] |}).
Proof.
  intros Ha Hm Hin Hl [Hp Hs] Hb HB.
  pose proof (route_message_in_space req text C s Hm Hin) as Hr.
  rewrite (webhook_known _ _ _ _ (KStr C) _ _ Ha Hr eq_refl Hl).
  unfold forward, bind, post. rewrite Hp, Hs. unfold resp_json. rewrite Hb.
  simpl. rewrite HB. reflexivity.
Qed.

(** X12.  A first message whose createSession call succeeds and whose
    sendMessage call is answered with a body the reply can be read from:
    the session id is stored under the conversation, the message is posted
    to [{base}/chats/{that id}] after the createSession call, and the answer
    is the reply read from the body. *)
Theorem first_message_is_answered_from_the_backend
    w req text C s created chat_id resp B reply :
  authenticate w req = None -> message_event req text -> in_space req C ->
  chat_sessions s !! KStr C = None ->
  answered w create_request created -> session_id_of created = Ok chat_id ->
  answered w (send_request chat_id (JStr text)) resp ->
  body_json resp = Some B -> extract_reply B = Ok reply ->
  webhook w req s
  = (Ok {| status := 200; body := JObj [("text", reply)] |},
     {| chat_sessions := <[KStr C := chat_id]> (chat_sessions s);
        calls := calls s
                 ++ [(CreateSession, create_request);
                     (SendMessage, send_request chat_id (JStr text))] |}).
Proof.
  intros Ha Hm Hin Hl Hc Hid [Hp Hs] Hb HB.
  pose proof (route_message_in_space req text C s Hm Hin) as Hr.
  rewrite (webhook_new _ _ _ _ (KStr C) _ Ha Hr eq_refl Hl). unfold bind at 1.
  rewrite (create_session_ok _ _ _ _ _ Hc Hid).
  unfold forward, bind, post. rewrite Hp, Hs. unfold resp_json. rewrite Hb.
  simpl. rewrite HB. unfold logged. simpl.
  rewrite <- app_assoc. reflexivity.
Qed.

(** X13.  A message, or a removal, whose [space.name] is a list or a dict
    cannot be looked up in the session dictionary: the handler raises
    [TypeError], having called nothing and stored nothing. *)
Theorem unhashable_space_name_raises w req event name s :
  authenticate w req = None ->
  get_json req = Some event ->
  space_name_of event = Some name ->
  dict_key name = Raise TypeError ->
  (event_type_is event "REMOVED_FROM_SPACE"
   \/ exists text, message_event req text) ->
  webhook w req s = (Raise TypeError, s).
Proof.
  intros Ha Hj Hn Hk Hkind. unfold webhook. rewrite Ha.
  assert (Hsp : exists fs sfs,
             event = JObj fs /\ Py.assoc "space" fs = Some (JObj sfs)
             /\ Py.assoc "name" sfs = Some name).
  { unfold space_name_of in Hn.
    destruct (member "space" event) as [sp|] eqn:Hsp; [|discriminate].
    simpl in Hn. destruct (member_object _ _ _ Hsp) as [fs ->].
    destruct (member_object _ _ _ Hn) as [sfs ->]. eauto. }
  destruct Hsp as (fs & sfs & -> & Hs & Hname).
  destruct Hkind as [Hty | (text & event' & Hj' & Hty & Ht & Hne)].
  - unfold event_type_is in Hty. simpl in Hty.
    unfold route. rewrite Hj. unfold bind at 2. simpl. unfold bind at 2.
    simpl. rewrite Hty. simpl. rewrite Hs. simpl.
    unfold bind. simpl. rewrite Hname. simpl. rewrite Hk. reflexivity.
  - rewrite Hj in Hj'. injection Hj' as <-.
    erewrite bind_ok.
    2:{ apply (route_forward req (JObj fs) (JStr text) s Hj).
        - simpl in *. rewrite Hty. reflexivity.
        - simpl in *. rewrite Hty. reflexivity.
        - exact Ht.
        - simpl. destruct text; [congruence|reflexivity].
        - right. exists sfs. exact Hs. }
    unfold session_for, find_session, bind. rewrite Hn. simpl. rewrite Hk.
    reflexivity.
Qed.

(** X14.  A first message whose createSession call comes back with a status
    that passes and a body that is not JSON: the handler raises
    [JSONDecodeError] after that one call, stores no session and sends
    nothing. *)
Theorem unreadable_session_answer_raises w req text C s created :
  authenticate w req = None -> message_event req text -> in_space req C ->
  chat_sessions s !! KStr C = None ->
  answered w create_request created -> body_json created = None ->
  webhook w req s
  = (Raise JSONDecodeError,
     {| chat_sessions := chat_sessions s;
        calls := calls s ++ [(CreateSession, create_request)] |}).
Proof.
  intros Ha Hm Hin Hl [Hp Hs] Hb.
  pose proof (route_message_in_space req text C s Hm Hin) as Hr.
  rewrite (webhook_new _ _ _ _ (KStr C) _ Ha Hr eq_refl Hl).
  unfold bind, create_session, bind, post. rewrite Hp, Hs.
  unfold session_id_of, resp_json. rewrite Hb. reflexivity.
Qed.

(** X15.  A first message whose session is created but whose sendMessage
    call comes back with a status that passes and a body that is not JSON:
    the handler raises [JSONDecodeError], and the session just created
    stays stored for the conversation. *)
Theorem unreadable_reply_keeps_the_new_session w req text C s created chat_id resp :
  authenticate w req = None -> message_event req text -> in_space req C ->
  chat_sessions s !! KStr C = None ->
  answered w create_request created -> session_id_of created = Ok chat_id ->
  answered w (send_request chat_id (JStr text)) resp ->
  body_json resp = None ->
  (webhook w req s).1 = Raise JSONDecodeError
  /\ chat_sessions (webhook w req s).2 !! KStr C = Some chat_id.
Proof.
  intros Ha Hm Hin Hl Hc Hid [Hp Hs] Hb.
  pose proof (route_message_in_space req text C s Hm Hin) as Hr.
  assert (Hw : webhook w req s
               = forward w chat_id (JStr text)
                   {| chat_sessions := <[KStr C := chat_id]> (chat_sessions s);
                      calls := calls s ++ [(CreateSession, create_request)] |}).
  { rewrite (webhook_new _ _ _ _ (KStr C) _ Ha Hr eq_refl Hl). unfold bind.
    rewrite (create_session_ok _ _ _ _ _ Hc Hid). reflexivity. }
  rewrite Hw. split.
  - unfold forward, bind, post. rewrite Hp, Hs. unfold resp_json.
    rewrite Hb. reflexivity.
  - rewrite forward_state. simpl. apply lookup_insert_eq.
Qed.

(** *** The token of the Authorization header *)

Lemma append_cons (x : ascii) (a b : string) :
  String x a +:+ b = String x (a +:+ b).
Proof. reflexivity. Qed.

Lemma append_assoc_str (a b c : string) : (a +:+ b) +:+ c = a +:+ (b +:+ c).
Proof.
  induction a as [|x a IH]; [reflexivity|].
  rewrite !append_cons. f_equal. exact IH.
Qed.

Lemma length_append_str (a b : string) :
  String.length (a +:+ b) = (String.length a + String.length b)%nat.
Proof.
  induction a as [|x a IH]; [reflexivity|].
  rewrite append_cons. simpl. f_equal. exact IH.
Qed.

Lemma split_from_skip sep p t cur :
  Py.split_from sep (String.length p) cur (p +:+ t) = Py.split_from sep O cur t.
Proof.
  induction p as [|c p IH]; [reflexivity|].
  rewrite append_cons. simpl. exact IH.
Qed.

Lemma split_from_nonempty sep s skip cur : Py.split_from sep skip cur s <> [].
Proof.
  revert skip cur. induction s as [|c s IH]; intros skip cur;
    cbn [Py.split_from].
  - congruence.
  - destruct skip as [|k]; [|apply IH].
    destruct (Py.startswith (String c s) sep); [congruence | apply IH].
Qed.

Lemma last_piece_cons x l : l <> [] -> Py.last_piece (x :: l) = Py.last_piece l.
Proof. destruct l; [congruence | reflexivity]. Qed.

(** The last piece of a split: the whole text when the separator does not
    occur, and otherwise what follows an occurrence and holds no other. *)
Lemma last_piece_split_from sep n :
  sep <> "" ->
  forall s cur,
    (String.length s <= n)%nat ->
    (Py.last_piece (Py.split_from sep O cur s)
     = string_of_list_ascii (rev cur ++ list_ascii_of_string s)
     /\ Py.contains s sep = false)
    \/ (exists before,
          s = before +:+ sep +:+ Py.last_piece (Py.split_from sep O cur s)
          /\ Py.contains (Py.last_piece (Py.split_from sep O cur s)) sep = false).
Proof.
  intros Hsep. destruct sep as [|c0 p]; [congruence|]. clear Hsep.
  induction n as [|n IH]; intros s cur Hlen.
  - destruct s; [|simpl in Hlen; lia]. left. simpl.
    rewrite app_nil_r. split; reflexivity.
  - destruct s as [|c s]; [left; simpl; rewrite app_nil_r; split; reflexivity|].
    cbn [Py.split_from].
    destruct (Py.startswith (String c s) (String c0 p)) eqn:Hs.
    + destruct (startswith_app _ _ Hs) as [t Ht].
      rewrite append_cons in Ht. injection Ht as -> ->.
      change (Nat.pred (String.length (String c0 p))) with (String.length p).
      rewrite split_from_skip.
      rewrite (last_piece_cons _ _ (split_from_nonempty _ _ _ _)).
      assert (Hlt : (String.length t <= n)%nat).
      { simpl in Hlen. rewrite length_append_str in Hlen. lia. }
      right. destruct (IH t [] Hlt) as [[Hr Hc] | (before & Hb & Hc)].
      * exists "". simpl in Hr. rewrite string_of_list_ascii_of_string in Hr.
        rewrite Hr. split; [reflexivity | exact Hc].
      * exists (String c0 p +:+ before). split; [|exact Hc].
        rewrite append_assoc_str, <- Hb. reflexivity.
    + assert (Hlt : (String.length s <= n)%nat) by (simpl in Hlen; lia).
      destruct (IH s (c :: cur) Hlt) as [[Hr Hc] | (before & Hb & Hc)].
      * left. split.
        -- rewrite Hr. simpl. rewrite <- app_assoc. reflexivity.
        -- cbn [Py.contains]. rewrite Hs, Hc. reflexivity.
      * right. exists (String c before). split; [|exact Hc].
        rewrite append_cons, <- Hb. reflexivity.
Qed.

(** X16.  The token the handler verifies is what follows the last
    "Bearer " of the Authorization header: the header is some text, then
    "Bearer ", then the token, and the token holds no "Bearer ". *)
Theorem bearer_token_follows_the_last_marker req token :
  bearer_token req = Some token ->
  exists before,
    authorization req = Some (before +:+ "Bearer " +:+ token)
    /\ Py.contains token "Bearer " = false.
Proof.
  unfold bearer_token.
  destruct (authorization req) as [h|]; simpl; [|discriminate].
  destruct (Py.startswith h "Bearer ") eqn:Hs; [|discriminate].
  intros [= <-]. unfold Py.split.
  destruct (last_piece_split_from "Bearer " (String.length h)
              ltac:(discriminate) h [] (le_n _))
    as [[_ Hc] | (before & Hb & Hc)].
  - exfalso. destruct h as [|a h]; [simpl in Hs; discriminate|].
    cbn [Py.contains] in Hc. rewrite Hs in Hc. discriminate.
  - exists before. split; [|exact Hc]. f_equal. exact Hb.
Qed.

(** X17.  For a header [Bearer <token>] whose token is not empty and holds
    no further "Bearer ", the request is admitted exactly when that token
    passes the key lookup and [jwt.decode] with RS256, the project number as
    audience and the Chat service account as issuer. *)
Theorem plain_bearer_header_is_verified_as_is w req token :
  authorization req = Some ("Bearer " +:+ token) ->
  token <> "" ->
  Py.contains token "Bearer " = false ->
  authenticate w req = None
  <-> exists signing_key,
        get_signing_key_from_jwt w token = inr signing_key
        /\ jwt_decode w token signing_key ["RS256"] GCP_PROJECT_NUMBER
             "chat@system.gserviceaccount.com" = inr tt.
Proof.
  intros Hh Hne Hc. unfold authenticate.
  rewrite (bearer_token_plain req token Hh Hc).
  apply String.eqb_neq in Hne. rewrite Hne. unfold verify. split.
  - destruct (get_signing_key_from_jwt w token) as [e|signing_key];
      [discriminate|].
    destruct (jwt_decode w token signing_key _ _ _) as [e|[]] eqn:Hd;
      [discriminate|].
    intros _. exists signing_key. split; [reflexivity | exact Hd].
  - intros (signing_key & -> & ->). reflexivity.
Qed.

End Webhook.

(** ** The handler on the sample traffic *)

Import Sample.

Notation "'handle'" := (webhook project base api_key no_repr).

Ltac is_event :=
  eexists; repeat split; first [reflexivity | discriminate].

Lemma unauthenticated_is_rejected_witness :
  handle expired (unsigned (message_in "spaces/A" "hi")) fresh
  = (Ok {| status := 401; body := JObj [("error", JStr "Unauthorized")] |}, fresh)
  /\ handle expired (signed (message_in "spaces/A" "hi")) fresh
     = (Ok {| status := 401; body := JObj [("error", JStr "Unauthorized")] |}, fresh).
Proof.
  split; apply unauthenticated_is_rejected.
  - left. intros (token & _ & H). discriminate H.
  - right. exists "good-token", ExpiredSignature. split; reflexivity.
Defined.

(** A header with "Bearer " twice.  What follows the first "Bearer " is
    "junk Bearer good-token", which does not verify; line 42 keeps what
    follows the last one, "good-token", which does: the request is let in,
    a session is created and the message is sent on. *)
Lemma second_bearer_marker_is_admitted :
  let w := knows_good_token (answers 200 (JObj [("id", JStr "s1")]))
             (answers 200 (JObj [("content", JStr "hello")])) in
  let req := {| authorization := Some ("Bearer " +:+ "junk Bearer good-token");
                get_json := Some (message_in "spaces/A" "hi") |} in
  verify project w "junk Bearer good-token" = inl DecodeError
  /\ bearer_token req = Some "good-token"
  /\ (handle w req fresh).1
     = Ok {| status := 200; body := JObj [("text", JStr "hello")] |}
  /\ chat_sessions (handle w req fresh).2 !! KStr "spaces/A" = Some (JStr "s1")
  /\ length (calls (handle w req fresh).2) = 2%nat.
Proof. repeat split; vm_compute; reflexivity. Qed.



Lemma reply_is_first_non_empty_witness :
  extract_reply
    (JObj [("chat", JObj [("role", JStr "assistant"); ("content", JStr "hi")])])
  = Ok (JStr "hi")
  /\ extract_reply (JObj [("content", JStr "hello")]) = Ok (JStr "hello")
  /\ extract_reply (JObj []) = Ok (JStr "*(No response from AI)*").
Proof.
  split; [|split].
  - refine (proj1 (reply_is_first_non_empty _ _)).
    split; [eexists; reflexivity|]. split; [right; eexists|left]; reflexivity.
  - refine (proj1 (reply_is_first_non_empty _ _)).
    split; [eexists; reflexivity|]. split; left; reflexivity.
  - refine (proj1 (reply_is_first_non_empty _ _)).
    split; [eexists; reflexivity|]. split; left; reflexivity.
Defined.

(** A backend answer whose [chat] member is the text itself: the handler
    calls [.get] on a string. *)
Lemma reply_extraction_can_raise :
  extract_reply (JObj [("chat", JStr "hi")]) = Raise AttributeError
  /\ (handle
        (backend (answers 200 (JObj [("id", JStr "s1")]))
           (answers 200 (JObj [("chat", JStr "hi")])))
        (signed (message_in "spaces/A" "hi")) fresh).1
     = Raise AttributeError.
Proof. split; vm_compute; reflexivity. Qed.

Lemma session_without_id_is_stored_witness :
  let w := backend (answers 200 (JObj [])) (answers 200 (JObj [("content", JStr "hello")])) in
  let req := signed (message_in "spaces/A" "hi") in
  let s1 := (handle w req fresh).2 in
  url (send_request base api_key no_repr JNull (JStr "hi"))
  = base +:+ "/chats/None"
  /\ chat_sessions s1 !! KStr "spaces/A" = Some JNull
  /\ count_site CreateSession (calls (handle w req s1).2)
     = count_site CreateSession (calls s1).
Proof.
  intros w req s1.
  assert (Hm : message_event req "hi") by is_event.
  assert (Hin : in_space req "spaces/A") by is_event.
  destruct (session_without_id_is_stored project base api_key no_repr
              w req "hi" "spaces/A" fresh _ []
              eq_refl Hm Hin eq_refl (conj eq_refl eq_refl) eq_refl
              eq_refl eq_refl) as (_ & Hurl & Hs1 & Hlater).
  split; [exact Hurl|]. split; [exact Hs1|].
  exact (Hlater w req "hi" eq_refl Hm Hin).
Defined.

(** C4.  The handler on a first message whose createSession answer is [{}],
    which names no session: the answer is not the apology of lines 87-89
    but what the backend sends back from [/chats/None]; [None] is stored as
    the session of the space, although the dictionary is to hold chat ids
    (line 35); and the next message does not create a session. *)
Lemma session_without_id_is_not_refused :
  let w := backend (answers 200 (JObj []))
             (answers 200 (JObj [("content", JStr "hello")])) in
  let req := signed (message_in "spaces/A" "hi") in
  (handle w req fresh).1
  = Ok {| status := 200; body := JObj [("text", JStr "hello")] |}
  /\ chat_sessions (handle w req fresh).2 !! KStr "spaces/A" = Some JNull
  /\ count_site CreateSession (calls (handle w req (handle w req fresh).2).2)
     = 1%nat.
Proof. repeat split; vm_compute; reflexivity. Qed.

Lemma event_without_text_is_ignored_witness :
  handle (backend (PostRaises ConnectionError) (PostRaises ConnectionError))
    (signed widget_updated) fresh
  = (Ok {| status := 200; body := JObj [] |}, fresh).
Proof.
  apply (event_without_text_is_ignored project base api_key no_repr
           _ _ widget_updated).
  - reflexivity.
  - reflexivity.
  - eexists. reflexivity.
  - discriminate.
  - discriminate.
  - discriminate.
  - left. reflexivity.
  - reflexivity.
Defined.

(** A card click that carries a message is handled as a MESSAGE: a session
    is created and the text is sent. *)
Lemma unknown_type_with_text_is_forwarded :
  let w := backend (answers 200 (JObj [("id", JStr "s1")]))
             (answers 200 (JObj [("content", JStr "hello")])) in
  let req := signed (card_clicked "spaces/A" "hi") in
  ~ event_type_is (card_clicked "spaces/A" "hi") "ADDED_TO_SPACE"
  /\ ~ event_type_is (card_clicked "spaces/A" "hi") "REMOVED_FROM_SPACE"
  /\ ~ event_type_is (card_clicked "spaces/A" "hi") "MESSAGE"
  /\ (handle w req fresh).1
     = Ok {| status := 200; body := JObj [("text", JStr "hello")] |}
  /\ chat_sessions (handle w req fresh).2 !! KStr "spaces/A" = Some (JStr "s1")
  /\ length (calls (handle w req fresh).2) = 2%nat.
Proof.
  repeat split; try discriminate; vm_compute; reflexivity.
Qed.

Lemma send_failure_keeps_the_session_witness :
  let w := backend (PostRaises ConnectionError)
             (answers 503 (JObj [("detail", JStr "overloaded")])) in
  let req := signed (message_in "spaces/A" "hi") in
  exists s',
    handle w req (with_session "spaces/A" (JStr "s1"))
    = (Ok {| status := 200;
             body := JObj [("text",
                     JStr "⚠️ Error: The AI service is unavailable at the moment.")] |},
       s')
    /\ chat_sessions s' = chat_sessions (with_session "spaces/A" (JStr "s1")).
Proof.
  intros w req.
  apply (send_failure_keeps_the_session project base api_key no_repr
           w req "hi" "spaces/A" (JStr "s1")).
  - reflexivity.
  - is_event.
  - is_event.
  - reflexivity.
  - right. eexists. split; reflexivity.
Defined.

(** A sendMessage answer with status 300 is not a 2xx, and
    [raise_for_status] lets it through: the reply is read from its body. *)
Lemma redirect_status_is_not_a_failure :
  let w := backend (PostRaises ConnectionError)
             (answers 300 (JObj [("content", JStr "pick one")])) in
  let req := signed (message_in "spaces/A" "hi") in
  (handle w req (with_session "spaces/A" (JStr "s1"))).1
  = Ok {| status := 200; body := JObj [("text", JStr "pick one")] |}.
Proof. vm_compute. reflexivity. Qed.

Lemma well_shaped_request_is_answered_witness :
  let w := backend (answers 200 (JObj [("id", JStr "s1")]))
             (answers 200 (JObj [("content", JStr "hello")])) in
  exists r s',
    handle w (signed (message_in "spaces/A" "hi")) fresh = (Ok r, s')
    /\ status r = 200
    /\ (body r = JObj [] \/ exists t, body r = JObj [("text", t)]).
Proof.
  intros w.
  apply (well_shaped_request_is_answered project base api_key no_repr
           w _ (message_in "spaces/A" "hi")).
  - reflexivity.
  - reflexivity.
  - split; [eexists; reflexivity|].
    split; [left; reflexivity|].
    split; [right; eexists; reflexivity|].
    split; [right; eexists; reflexivity|].
    eexists. reflexivity.
  - intros resp [Hp _]. vm_compute in Hp. injection Hp as <-.
    eexists. reflexivity.
  - intros chat_id user_message resp [Hp _]. unfold w, backend in Hp.
    simpl in Hp.
    destruct (String.eqb _ _) in Hp; injection Hp as <-;
      (eexists; split; [reflexivity|]);
      (split; [eexists; reflexivity|]); split; left; reflexivity.
Defined.

(** An authenticated message whose sendMessage answer is a 200 with a body
    that is not JSON, and an authenticated request whose body is a JSON
    array: the handler raises. *)
Lemma handler_can_raise :
  let w := backend (answers 200 (JObj [("id", JStr "s1")])) answers_text in
  authenticate project w (signed (message_in "spaces/A" "hi")) = None
  /\ (handle w (signed (message_in "spaces/A" "hi")) fresh).1
     = Raise JSONDecodeError
  /\ (handle w (signed (JArr [])) fresh).1 = Raise AttributeError.
Proof. repeat split; vm_compute; reflexivity. Qed.

(** The first message of a space, as the handler sends it on: the call to
    [/chats/new] has no timeout, the call to [/chats/s1] has one. *)
Lemma first_message_calls :
  map (fun c => (c.1, url c.2, timeout c.2))
    (calls
       (handle
          (backend (answers 200 (JObj [("id", JStr "s1")]))
             (answers 200 (JObj [("content", JStr "hello")])))
          (signed (message_in "spaces/A" "hi")) fresh).2)
  = [(CreateSession, "https://owui.example/api/v1/chats/new", None);
     (SendMessage, "https://owui.example/api/v1/chats/s1", Some 15)].
Proof. vm_compute. reflexivity. Qed.

Lemma first_messages_share_a_session_when_ordered_witness :
  let w1 := backend (answers 200 (JObj [("id", JStr "s1")]))
              (answers 200 (JObj [("content", JStr "one")])) in
  let w2 := backend (answers 200 (JObj [("id", JStr "s2")]))
              (answers 200 (JObj [("content", JStr "two")])) in
  let first := Arrived w1 (signed (message_in "spaces/A" "hi")) in
  let second := Arrived w2 (signed (message_in "spaces/A" "again")) in
  (exists r1 r2 s',
      run project base api_key no_repr
        [First; First; Second; Second; First; Second] first second fresh
      = (Finished r1, Finished r2, s')
      /\ chat_sessions s' = <[KStr "spaces/A" := JStr "s1"]> (chat_sessions fresh)
      /\ count_site CreateSession (calls s')
         = S (count_site CreateSession (calls fresh))
      /\ In (SendMessage,
             send_request base api_key no_repr (JStr "s1") (JStr "again"))
           (calls s'))
  /\ count_site CreateSession
       (calls (run project base api_key no_repr
                 [First; Second; Second; First; First; Second]
                 first second fresh).2)
     = S (S (count_site CreateSession (calls fresh))).
Proof.
  intros w1 w2 first second.
  destruct (first_messages_share_a_session_when_ordered project base api_key
              no_repr w1 (signed (message_in "spaces/A" "hi")) "hi"
              w2 (signed (message_in "spaces/A" "again")) "again"
              "spaces/A" fresh)
    as [Hordered Hoverlap].
  - reflexivity.
  - is_event.
  - is_event.
  - reflexivity.
  - is_event.
  - is_event.
  - reflexivity.
  - split.
    + apply (Hordered First [Second; Second; First; Second]
               {| status_code := 200;
                  body_json := Some (JObj [("id", JStr "s1")]) |} (JStr "s1")).
      * split; reflexivity.
      * reflexivity.
      * vm_compute. lia.
      * vm_compute. lia.
    + apply (Hoverlap First [Second; First; First; Second]).
      * vm_compute. lia.
      * vm_compute. lia.
Defined.

(** Two first messages of a space.  When their handling overlaps, each
    finds no session, each creates one, and the second is sent to its own
    session, not to the first's.  When they are handled one after the other
    and the createSession call of the first fails, the second creates a
    session of its own as well. *)
Lemma overlapping_first_messages_create_two_sessions :
  let w1 := backend (answers 200 (JObj [("id", JStr "s1")]))
              (answers 200 (JObj [("content", JStr "one")])) in
  let w2 := backend (answers 200 (JObj [("id", JStr "s2")]))
              (answers 200 (JObj [("content", JStr "two")])) in
  let down := backend (answers 500 (JObj [])) (PostRaises ConnectionError) in
  (let '(t1, t2, s') :=
     run project base api_key no_repr
       [First; Second; First; Second; First; Second]
       (Arrived w1 (signed (message_in "spaces/A" "hi")))
       (Arrived w2 (signed (message_in "spaces/A" "again"))) fresh in
   t1 = Finished (Ok {| status := 200; body := JObj [("text", JStr "one")] |})
   /\ t2 = Finished (Ok {| status := 200; body := JObj [("text", JStr "two")] |})
   /\ count_site CreateSession (calls s') = 2%nat
   /\ map (fun c => (c.1, url c.2)) (calls s')
      = [(CreateSession, "https://owui.example/api/v1/chats/new");
         (CreateSession, "https://owui.example/api/v1/chats/new");
         (SendMessage, "https://owui.example/api/v1/chats/s1");
         (SendMessage, "https://owui.example/api/v1/chats/s2")]
   /\ chat_sessions s' !! KStr "spaces/A" = Some (JStr "s2"))
  /\ (let '(t1, t2, s') :=
        run project base api_key no_repr
          [First; First; First; Second; Second; Second]
          (Arrived down (signed (message_in "spaces/A" "hi")))
          (Arrived w2 (signed (message_in "spaces/A" "again"))) fresh in
      count_site CreateSession (calls s') = 2%nat
      /\ chat_sessions s' !! KStr "spaces/A" = Some (JStr "s2")).
Proof. vm_compute. repeat split. Qed.

(** ** The further properties on the sample traffic *)

Lemma startup_names_the_missing_variable_witness :
  Startup.load key_only
  = Startup.ValueError "Missing required environment variable: GCP_PROJECT_NUMBER".
Proof.
  apply (proj1 (startup_names_the_missing_variable key_only)).
  left. vm_compute. reflexivity.
Defined.

Lemma other_conversations_are_untouched_witness :
  let w := backend (answers 200 (JObj [("id", JStr "s1")]))
             (answers 200 (JObj [("content", JStr "hello")])) in
  chat_sessions
    (handle w (signed (message_in "spaces/A" "hi"))
       (with_session "spaces/B" (JStr "s9"))).2 !! KStr "spaces/B"
  = chat_sessions (with_session "spaces/B" (JStr "s9")) !! KStr "spaces/B".
Proof.
  intros w. apply other_conversations_are_untouched.
  intros event k [= <-] [= <-]. discriminate.
Defined.

Lemma answer_is_401_only_when_denied_witness :
  let w := backend (answers 200 (JObj [("id", JStr "s1")]))
             (answers 200 (JObj [("content", JStr "hello")])) in
  let r := {| status := 200; body := JObj [("text", JStr "hello")] |} in
  (authenticate project w (signed (message_in "spaces/A" "hi")) = Some r
   /\ status r = 401
   /\ (handle w (signed (message_in "spaces/A" "hi")) fresh).2 = fresh)
  \/ (authenticate project w (signed (message_in "spaces/A" "hi")) = None
      /\ status r = 200).
Proof.
  intros w r.
  apply (answer_is_401_only_when_denied project base api_key no_repr
           w (signed (message_in "spaces/A" "hi")) fresh r).
  vm_compute. reflexivity.
Defined.

Lemma text_replies_are_not_empty_witness :
  Py.truthy (JStr "*(No response from AI)*") = true.
Proof.
  apply (text_replies_are_not_empty project base api_key no_repr
           (backend (answers 200 (JObj [("id", JStr "s1")]))
              (answers 200 (JObj [("content", JStr "")])))
           (signed (message_in "spaces/A" "hi")) fresh
           {| status := 200;
              body := JObj [("text", JStr "*(No response from AI)*")] |}
           (handle
              (backend (answers 200 (JObj [("id", JStr "s1")]))
                 (answers 200 (JObj [("content", JStr "")])))
              (signed (message_in "spaces/A" "hi")) fresh).2).
  - vm_compute. reflexivity.
  - reflexivity.
Defined.


Lemma removal_forgets_only_its_space_witness :
  let w := backend (PostRaises ConnectionError) (PostRaises ConnectionError) in
  let req := signed (removed_from "spaces/A") in
  exists s',
    handle w req (with_session "spaces/A" (JStr "s1"))
    = (Ok {| status := 200; body := JObj [] |}, s')
    /\ calls s' = calls (with_session "spaces/A" (JStr "s1"))
    /\ chat_sessions s' !! KStr "spaces/A" = None
    /\ (forall k,
          k <> KStr "spaces/A" ->
          chat_sessions s' !! k
          = chat_sessions (with_session "spaces/A" (JStr "s1")) !! k)
    /\ handle w req s' = (Ok {| status := 200; body := JObj [] |}, s').
Proof.
  intros w req.
  apply (removal_forgets_only_its_space project base api_key no_repr
           w req "spaces/A").
  - reflexivity.
  - is_event.
  - is_event.
Defined.


Lemma failed_session_creation_is_retried_witness :
  let w := backend (answers 500 (JObj [])) (PostRaises ConnectionError) in
  let req := signed (message_in "spaces/A" "hi") in
  handle w req fresh
  = (Ok {| status := 200;
           body := JObj [("text",
                     JStr "Sorry, I couldn't start a session with the AI.")] |},
     {| chat_sessions := chat_sessions fresh;
        calls := calls fresh ++ [(CreateSession, create_request base api_key)] |})
  /\ count_site CreateSession (calls (handle w req (handle w req fresh).2).2)
     = S (count_site CreateSession (calls (handle w req fresh).2)).
Proof.
  intros w req.
  assert (Hm : message_event req "hi") by is_event.
  assert (Hin : in_space req "spaces/A") by is_event.
  destruct (failed_session_creation_is_retried project base api_key no_repr
              w req "hi" "spaces/A" fresh eq_refl Hm Hin eq_refl) as [Hw Hnext].
  - right. eexists. split; reflexivity.
  - split; [exact Hw|]. exact (Hnext w req "hi" eq_refl Hm Hin).
Defined.

Lemma message_is_answered_from_the_backend_witness :
  let w := backend (PostRaises ConnectionError)
             (answers 200 (JObj [("content", JStr "hello")])) in
  let req := signed (message_in "spaces/A" "hi") in
  handle w req (with_session "spaces/A" (JStr "s1"))
  = (Ok {| status := 200; body := JObj [("text", JStr "hello")] |},
     {| chat_sessions := chat_sessions (with_session "spaces/A" (JStr "s1"));
        calls :=
          calls (with_session "spaces/A" (JStr "s1"))
          ++ [(SendMessage,
               {| url := base +:+ "/chats/" +:+ "s1";
                  headers := [("Authorization", "Bearer " +:+ api_key);
                              ("Content-Type", "application/json")];
                  json_arg :=
                    JObj [("chat", JObj [("content", JStr "hi");
                                         ("role", JStr "user")])];
                  timeout := Some 15 |})] |}).
Proof.
  intros w req.
  apply (message_is_answered_from_the_backend project base api_key no_repr
           w req "hi" "spaces/A" (JStr "s1") _
           {| status_code := 200;
              body_json := Some (JObj [("content", JStr "hello")]) |}
           (JObj [("content", JStr "hello")])).
  - reflexivity.
  - is_event.
  - is_event.
  - reflexivity.
  - split; reflexivity.
  - reflexivity.
  - reflexivity.
Defined.

Lemma first_message_is_answered_from_the_backend_witness :
  let w := backend (answers 200 (JObj [("id", JStr "s1")]))
             (answers 200 (JObj [("content", JStr "hello")])) in
  let req := signed (message_in "spaces/A" "hi") in
  handle w req fresh
  = (Ok {| status := 200; body := JObj [("text", JStr "hello")] |},
     {| chat_sessions := <[KStr "spaces/A" := JStr "s1"]> (chat_sessions fresh);
        calls :=
          calls fresh
          ++ [(CreateSession, create_request base api_key);
              (SendMessage,
               send_request base api_key no_repr (JStr "s1") (JStr "hi"))] |}).
Proof.
  intros w req.
  apply (first_message_is_answered_from_the_backend project base api_key no_repr
           w req "hi" "spaces/A" fresh
           {| status_code := 200; body_json := Some (JObj [("id", JStr "s1")]) |}
           (JStr "s1")
           {| status_code := 200;
              body_json := Some (JObj [("content", JStr "hello")]) |}
           (JObj [("content", JStr "hello")])).
  - reflexivity.
  - is_event.
  - is_event.
  - reflexivity.
  - split; reflexivity.
  - reflexivity.
  - split; reflexivity.
  - reflexivity.
  - reflexivity.
Defined.

Lemma unhashable_space_name_raises_witness :
  handle (backend (PostRaises ConnectionError) (PostRaises ConnectionError))
    (signed (message_in_a_list "hi")) fresh
  = (Raise TypeError, fresh).
Proof.
  apply (unhashable_space_name_raises project base api_key no_repr
           _ _ (message_in_a_list "hi") (JArr [JStr "spaces/A"])).
  - reflexivity.
  - reflexivity.
  - reflexivity.
  - reflexivity.
  - right. exists "hi". is_event.
Defined.

Lemma unreadable_session_answer_raises_witness :
  let w := backend answers_text (PostRaises ConnectionError) in
  handle w (signed (message_in "spaces/A" "hi")) fresh
  = (Raise JSONDecodeError,
     {| chat_sessions := chat_sessions fresh;
        calls := calls fresh ++ [(CreateSession, create_request base api_key)] |}).
Proof.
  intros w.
  apply (unreadable_session_answer_raises project base api_key no_repr
           w _ "hi" "spaces/A" fresh
           {| status_code := 200; body_json := None |}).
  - reflexivity.
  - is_event.
  - is_event.
  - reflexivity.
  - split; reflexivity.
  - reflexivity.
Defined.

Lemma unreadable_reply_keeps_the_new_session_witness :
  let w := backend (answers 200 (JObj [("id", JStr "s1")])) answers_text in
  let req := signed (message_in "spaces/A" "hi") in
  (handle w req fresh).1 = Raise JSONDecodeError
  /\ chat_sessions (handle w req fresh).2 !! KStr "spaces/A" = Some (JStr "s1").
Proof.
  intros w req.
  apply (unreadable_reply_keeps_the_new_session project base api_key no_repr
           w req "hi" "spaces/A" fresh
           {| status_code := 200; body_json := Some (JObj [("id", JStr "s1")]) |}
           (JStr "s1") {| status_code := 200; body_json := None |}).
  - reflexivity.
  - is_event.
  - is_event.
  - reflexivity.
  - split; reflexivity.
  - reflexivity.
  - split; reflexivity.
  - reflexivity.
Defined.

Lemma bearer_token_follows_the_last_marker_witness :
  exists before,
    Some "Bearer junk Bearer good-token"
    = Some (before +:+ "Bearer " +:+ "good-token")
    /\ Py.contains "good-token" "Bearer " = false.
Proof.
  apply (bearer_token_follows_the_last_marker
           {| authorization := Some "Bearer junk Bearer good-token";
              get_json := None |} "good-token").
  reflexivity.
Defined.

Lemma plain_bearer_header_is_verified_as_is_witness :
  authenticate project
    (backend (PostRaises ConnectionError) (PostRaises ConnectionError))
    (signed (message_in "spaces/A" "hi")) = None
  <-> exists signing_key,
        inr "key" = (inr signing_key : jwt_error + string)
        /\ (inr tt : jwt_error + unit) = inr tt.
Proof.
  apply (plain_bearer_header_is_verified_as_is project
           (backend (PostRaises ConnectionError) (PostRaises ConnectionError))
           (signed (message_in "spaces/A" "hi")) "good-token").
  - reflexivity.
  - discriminate.
  - reflexivity.
Defined.
